(** * Zuth TypeScript SDK: the request pipeline and the OAuth flow

    A shallow embedding of [src/security.ts], [src/client.ts],
    [src/auth.ts] (login), [src/oauth.ts] (both revisions found in the
    repository) and [src/index.ts], followed by the properties that the
    specification states about them.

    Conventions of the embedding.
    - A JavaScript string is the [string] of its UTF-8 bytes; [===] on
      strings is equality of these byte sequences.
    - [string | null] and optional fields are [option string]; the
      truthiness test of JavaScript ([if (x)], [!x], [x || d]) is written
      out with [truthy] and [or_default]: the empty string is falsy.
    - [throw] is the [Throw] constructor of [Result]; asynchronous
      methods are functions in the monad [M], which threads the client's
      token slot, the log of dispatched requests and the console.
    - What the runtime provides and the repository does not define (the
      URL parser, the regular-expression engine, Unicode case mapping and
      trimming) is the class [Platform]; a theorem holds for every
      platform unless it names one.
    - Of the HTTP library, the embedding has the header names, which are
      matched without regard to case ([Headers]), and the headers that a
      new instance starts with, which the library computes from the ones
      it is given (the class [Axios]).
    - The body of an error response is what the server sent: an object
      with the declared fields, [null], or something else
      ([ErrorBody]). *)

From stdpp Require Import gmap strings list.
From Stdlib Require Import String Ascii ZArith NArith Bool List Lia.
From Stdlib.Strings Require Import Byte.
Import ListNotations.

Open Scope string_scope.

#[global] Arguments String.append : simpl nomatch.

(** ** JavaScript values *)

(** Truthiness of a string: only the empty string is falsy. *)
Definition truthy_string (s : string) : bool :=
  negb (String.eqb s "").

(** Truthiness of a [string | null | undefined] value. *)
Definition truthy (v : option string) : bool :=
  match v with
  | Some s => truthy_string s
  | None => false
  end.

(** The string held by [v] when [v] is truthy. *)
Definition if_truthy (v : option string) : option string :=
  match v with
  | Some s => if truthy_string s then Some s else None
  | None => None
  end.

(** [v || d] where [v] is a possibly missing string. *)
Definition or_default (v : option string) (d : string) : string :=
  match v with
  | Some s => if truthy_string s then s else d
  | None => d
  end.

(** [v || d] where [v] is a possibly missing number: 0 is falsy. *)
Definition or_default_num (v : option Z) (d : Z) : Z :=
  match v with
  | Some n => if Z.eqb n 0 then d else n
  | None => d
  end.

(** [v !== s] where [v] is a string or null: no conversion, no
    normalisation. *)
Definition strict_neq (v : option string) (s : string) : bool :=
  match v with
  | Some t => negb (String.eqb t s)
  | None => true
  end.

(** [s.includes(search)]. *)
Fixpoint String_includes (search s : string) : bool :=
  if String.prefix search s then true
  else match s with
       | EmptyString => false
       | String _ rest => String_includes search rest
       end.

(** [p] holds of every byte of [s]. *)
Fixpoint every_char (p : ascii -> bool) (s : string) : bool :=
  match s with
  | EmptyString => true
  | String c rest => p c && every_char p rest
  end.

(** A value of type [any] (the [details] of an error payload). *)
Unset Elimination Schemes.
Inductive Json : Type :=
  | JNull
  | JBool (b : bool)
  | JNumber (n : Z)
  | JString (s : string)
  | JArray (items : list Json)
  | JObject (fields : list (string * Json)).
Set Elimination Schemes.

(** ** Types ([src/types/index.ts]) *)

Module ZuthConfig.
Record t : Type := mk {
  baseUrl : string;
  clientId : option string;
  clientSecret : option string;
  redirectUri : option string;
  timeout : option Z;
  headers : option (gmap string string)
}.
End ZuthConfig.

Module ZuthError.
(** The error body of the server when its fields are of the declared
    types; [ErrorBody] below has the other bodies. The interceptor reads
    the fields through [||], so each of them may be missing. *)
Record t : Type := mk {
  error : option string;
  message : option string;
  statusCode : option Z;
  timestamp : option string;
  path : option string;
  details : option Json
}.
End ZuthError.

Module ZuthSDKError.
Record t : Type := mk {
  message : string;
  statusCode : Z;
  error : string;
  details : option Json
}.
End ZuthSDKError.

Module AxiosResponse.
Record t (D : Type) : Type := mk {
  status : Z;
  data : D
}.
Arguments mk {D} _ _.
Arguments status {D} _.
Arguments data {D} _.
End AxiosResponse.

(** The body of an error response, [error.response.data], as the
    response interceptor meets it. The declared type is [ZuthError], but
    the body is whatever the server sent.
    - [ObjectBody payload]: the fields that the interceptor reads are of
      their declared types, or missing ([payload] records them). A body
      that is a string, a number, a boolean or an array has none of
      these fields.
    - [NullBody message]: the body is [null] (or [undefined]); reading a
      property of it throws a [TypeError], whose [message] is the
      runtime's.
    - [OtherBody thrown]: some field that the interceptor reads has
      another type than declared (a message that is an array, a status
      code that is a string). The runtime's conversions of such values
      are not followed here: the body comes with what the interceptor
      ends up throwing on it, the message of a [TypeError] or a
      [ZuthSDKError]. That [ZuthSDKError] is the error as the SDK's own
      code can tell it, which only compares the status code with the
      number 401: its status code is the body's when that is a number,
      and its message the string that the runtime makes of the body's. *)
Inductive ErrorBody : Type :=
  | ObjectBody (payload : ZuthError.t)
  | NullBody (message : string)
  | OtherBody (thrown : string + ZuthSDKError.t).

Module AxiosError.
(** [AxiosError<ZuthError>]: [response] is set when the server answered,
    [request] when the request left but nothing came back. *)
Record t : Type := mk {
  response : option (AxiosResponse.t ErrorBody);
  request : bool;
  message : option string
}.
End AxiosError.

(** ** Exceptions and results *)

Inductive JsError : Type :=
  | Error (message : string)            (* new Error(message) *)
  | TypeError (message : string)        (* thrown by the runtime *)
  | SDKError (e : ZuthSDKError.t)       (* new ZuthSDKError(...) *)
  | RawAxiosError (e : AxiosError.t).   (* the HTTP library's own error *)

Definition error_message (e : JsError) : string :=
  match e with
  | Error m => m
  | TypeError m => m
  | SDKError s => ZuthSDKError.message s
  | RawAxiosError a => or_default (AxiosError.message a) ""
  end.

Inductive Result (A : Type) : Type :=
  | Ok (a : A)
  | Throw (e : JsError).
Arguments Ok {A} a.
Arguments Throw {A} e.

(** [try { body } catch (error) { handler }]. *)
Definition try_catch {A} (body : Result A) (handler : JsError -> Result A)
  : Result A :=
  match body with
  | Ok a => Ok a
  | Throw e => handler e
  end.

(** ** The platform *)

Module URL.
(** The fields of a parsed [URL] object that the SDK reads. *)
Record t : Type := mk {
  protocol : string;
  hostname : string;
  host : string;
  origin : string;
  pathname : string;
  searchParams : list (string * string)
}.
End URL.

(** [new URL(s)] either yields a URL object or throws a [TypeError]
    whose message is the runtime's. *)
Inductive URLParse : Type :=
  | ParsedURL (u : URL.t)
  | InvalidURL (message : string).

Record RegExp : Type := mkRegExp { source : string; global : bool }.

Class Platform : Type := {
  new_URL : string -> URLParse;
  RegExp_test : RegExp -> string -> bool;
  String_replace : RegExp -> string -> string -> string;
  String_toLowerCase : string -> string;
  String_trim : string -> string
}.

(** [searchParams.get(name)]: the first value under [name], or null. *)
Fixpoint URLSearchParams_get (name : string) (params : list (string * string))
  : option string :=
  match params with
  | [] => None
  | (k, v) :: rest =>
      if String.eqb k name then Some v else URLSearchParams_get name rest
  end.

(** *** Hexadecimal rendering *)

Definition hex_digit_lower (d : N) : ascii :=
  match String.get (N.to_nat d) "0123456789abcdef" with
  | Some c => c
  | None => "0"%char
  end.

Definition hex_digit_upper (d : N) : ascii :=
  match String.get (N.to_nat d) "0123456789ABCDEF" with
  | Some c => c
  | None => "0"%char
  end.

Fixpoint toString16_digits (fuel : nat) (n : N) (acc : string) : string :=
  match fuel with
  | O => acc
  | S fuel' =>
      let acc' := String (hex_digit_lower (n mod 16)) acc in
      if (n <? 16)%N then acc' else toString16_digits fuel' (n / 16) acc'
  end.

(** [n.toString(16)] for a non-negative integer. *)
Definition Number_toString16 (n : N) : string :=
  toString16_digits (S (N.to_nat (N.log2 n))) n "".

Fixpoint pad_chars (k : nat) (pad cur : string) : string :=
  match k with
  | O => ""
  | S k' =>
      match cur with
      | String c rest => String c (pad_chars k' pad rest)
      | EmptyString =>
          match pad with
          | String c rest => String c (pad_chars k' pad rest)
          | EmptyString => ""
          end
      end
  end.

(** [s.padStart(targetLength, padString)]. *)
Definition String_padStart (targetLength : nat) (padString s : string)
  : string :=
  if (targetLength <=? String.length s)%nat then s
  else pad_chars (targetLength - String.length s) padString padString ++ s.

(** *** Query serialisation: [new URLSearchParams(obj).toString()] *)

(** Bytes that the application/x-www-form-urlencoded serialiser leaves
    as they are: ASCII letters and digits, and [*], [-], [.], [_]. *)
Definition urlencoded_safe (c : ascii) : bool :=
  let n := N_of_ascii c in
  ((48 <=? n) && (n <=? 57) || (65 <=? n) && (n <=? 90)
   || (97 <=? n) && (n <=? 122)
   || (n =? 42) || (n =? 45) || (n =? 46) || (n =? 95))%N.

Definition urlencode_byte (c : ascii) : string :=
  if urlencoded_safe c then String c ""
  else if (N_of_ascii c =? 32)%N then "+"
  else
    let n := N_of_ascii c in
    String "%" (String (hex_digit_upper (n / 16))
               (String (hex_digit_upper (n mod 16)) "")).

Fixpoint urlencode (s : string) : string :=
  match s with
  | EmptyString => ""
  | String c rest => urlencode_byte c ++ urlencode rest
  end.

Definition URLSearchParams_toString (params : list (string * string))
  : string :=
  String.concat "&"
    (List.map (fun kv => urlencode (fst kv) ++ "=" ++ urlencode (snd kv))
       params).

(** ** Security utilities ([src/security.ts]) *)

Module Security.

Definition insecure_url_message : string :=
  "Insecure URL detected. HTTPS is required in production. " ++
  "Use https:// for your baseUrl in production environments.".

Definition validateSecureUrl `{Platform} (url : string)
    (allowLocalhost : bool) : Result unit :=
  try_catch
    (match new_URL url with
     | InvalidURL m => Throw (TypeError m)
     | ParsedURL urlObj =>
         if allowLocalhost
            && (String.eqb (URL.hostname urlObj) "localhost"
                || String.eqb (URL.hostname urlObj) "127.0.0.1")
         then Ok tt
         else if negb (String.eqb (URL.protocol urlObj) "https:")
         then Throw (Error insecure_url_message)
         else Ok tt
     end)
    (fun error =>
       if String_includes "Insecure URL" (error_message error)
       then Throw error
       else Throw (Error ("Invalid URL: " ++ url))).

Definition redirect_not_allowed_message (redirectUri : string)
    (allowedOrigins : list string) : string :=
  "Redirect URI " ++ redirectUri ++
  " is not in the allowed origins list. " ++
  "Allowed origins: " ++ String.concat ", " allowedOrigins.

(** [allowedOrigins.includes(origin)]. *)
Definition Array_includes (l : list string) (x : string) : bool :=
  existsb (String.eqb x) l.

Definition validateRedirectUri `{Platform} (redirectUri : string)
    (allowedOrigins : list string) : Result unit :=
  try_catch
    (match new_URL redirectUri with
     | InvalidURL m => Throw (TypeError m)
     | ParsedURL uriObj =>
         let origin := URL.protocol uriObj ++ "//" ++ URL.host uriObj in
         if negb (Array_includes allowedOrigins origin)
         then Throw (Error (redirect_not_allowed_message redirectUri
                              allowedOrigins))
         else Ok tt
     end)
    (fun error =>
       if String_includes "Redirect URI" (error_message error)
       then Throw error
       else Throw (Error ("Invalid redirect URI: " ++ redirectUri))).

(** [new Uint8Array(n)]. *)
Definition Uint8Array (n : nat) : list byte := repeat x00 n.

(** [crypto.getRandomValues(array)] (or [randomFillSync]): every cell
    of the array is overwritten; [rnd i] is the byte drawn for cell
    [i]. *)
Definition getRandomValues (rnd : nat -> byte) (array : list byte)
  : list byte :=
  List.map rnd (seq 0 (List.length array)).

(** [byte => byte.toString(16).padStart(2, '0')]. *)
Definition render_byte (b : byte) : string :=
  String_padStart 2 "0" (Number_toString16 (Byte.to_N b)).

(** [Array.from(array, render).join('')]. *)
Definition render_state (array : list byte) : string :=
  String.concat "" (List.map render_byte array).

Definition generateOAuthState (rnd : nat -> byte) : string :=
  let array := getRandomValues rnd (Uint8Array 32) in
  render_state array.

Definition state_missing_message : string :=
  "OAuth state parameter is missing. This may indicate a CSRF attack.".

Definition state_mismatch_message : string :=
  "OAuth state parameter mismatch. This may indicate a CSRF attack.".

Definition validateOAuthState (receivedState : option string)
    (originalState : string) : Result unit :=
  if negb (truthy receivedState)
  then Throw (Error state_missing_message)
  else if strict_neq receivedState originalState
  then Throw (Error state_mismatch_message)
  else Ok tt.

Definition double_quote : string := String (ascii_of_nat 34) "".

Definition html_tag : RegExp := mkRegExp "<[^>]*>" true.
Definition dangerous_character : RegExp :=
  mkRegExp ("[<>'" ++ double_quote ++ "]") true.

Definition sanitizeInput `{Platform} (input : string) : string :=
  String_trim
    (String_replace dangerous_character
       (String_replace html_tag input "") "").

Definition emailRegex : RegExp := mkRegExp "^[^\s@]+@[^\s@]+\.[^\s@]+$" false.

Definition isValidEmail `{Platform} (email : string) : bool :=
  RegExp_test emailRegex email.

End Security.

(** ** More types ([src/types/index.ts]) *)

Module Organization.
Record t : Type := mk {
  id : string;
  name : string;
  setup_completed : option bool
}.
End Organization.

Module User.
Record t : Type := mk {
  id : string;
  email : string;
  name : option string;
  role : string;
  organization : option Organization.t;
  mfaEnabled : option bool;
  createdAt : string
}.
End User.

Module Device.
Record t : Type := mk {
  id : string;
  fingerprint : string;
  lastUsedAt : string
}.
End Device.

Module LoginRequest.
Record t : Type := mk { email : string; password : string }.
End LoginRequest.

Module LoginResponse.
Record t : Type := mk {
  access_token : string;
  user : User.t;
  device : option Device.t
}.
End LoginResponse.

Inductive ResponseType : Type := response_code | response_token.

Definition ResponseType_string (r : ResponseType) : string :=
  match r with
  | response_code => "code"
  | response_token => "token"
  end.

Inductive GrantType : Type := authorization_code | refresh_token_grant.

Definition GrantType_string (g : GrantType) : string :=
  match g with
  | authorization_code => "authorization_code"
  | refresh_token_grant => "refresh_token"
  end.

Module OAuthAuthorizeParams.
Record t : Type := mk {
  clientId : string;
  redirectUri : string;
  responseType : option ResponseType;
  scope : option string;
  state : option string
}.
End OAuthAuthorizeParams.

Module OAuthAuthorizationResult.
(** Modelled from the spec: the declaration of [OAuthAuthorizationResult]
    is not in [src/types/index.ts]. The specification gives the result of
    building an authorization URL as the pair (url, state), and
    [getAuthorizationUrl] returns the object [{ url, state }]. *)
Record t : Type := mk { url : string; state : string }.
End OAuthAuthorizationResult.

Module OAuthTokenRequest.
Record t : Type := mk {
  code : string;
  clientId : string;
  clientSecret : option string;
  redirectUri : string;
  grantType : option GrantType
}.
End OAuthTokenRequest.

Module OAuthTokenResponse.
Record t : Type := mk {
  access_token : string;
  token_type : string;
  expires_in : Z;
  refresh_token : option string;
  scope : option string;
  id_token : option string
}.
End OAuthTokenResponse.

(** ** The wire *)

Inductive Method : Type := GET | POST | PUT | DELETE.

(** The request bodies that the SDK posts. *)
Inductive Body : Type :=
  | LoginBody (data : LoginRequest.t)
  (* { ...data, grant_type } *)
  | TokenBody (data : OAuthTokenRequest.t) (grant_type : string)
  (* { grant_type, refresh_token, client_id } *)
  | RefreshBody (grant_type refresh_token client_id : string).

(** ** HTTP headers

    The HTTP library matches header names without regard to case, as
    HTTP does: the request that leaves after the assignment of
    [headers.Authorization] has this value also when a header was
    configured as [authorization]. A set of headers keeps each header
    under the lower-case form of its name, and is read and written
    through that form. Header names are ASCII text, so only the letters
    A to Z have another lower-case form. *)

Module Headers.

Definition lower_ascii (c : ascii) : ascii :=
  let n := N_of_ascii c in
  if ((65 <=? n) && (n <=? 90))%N then ascii_of_N (n + 32) else c.

Fixpoint normalize (name : string) : string :=
  match name with
  | EmptyString => ""
  | String c rest => String (lower_ascii c) (normalize rest)
  end.

Record t : Type := mk { entries : gmap string string }.

Definition get (name : string) (h : t) : option string :=
  entries h !! normalize name.

Definition set (name value : string) (h : t) : t :=
  mk (<[normalize name := value]> (entries h)).

End Headers.

#[global] Instance Headers_lookup : Lookup string string Headers.t :=
  Headers.get.
#[global] Instance Headers_insert : Insert string string Headers.t :=
  Headers.set.

(** What the HTTP library makes of the [headers] option given to
    [axios.create]: the headers of the new instance, with the library's
    own defaults. *)
Class Axios : Type := {
  axios_create_headers : gmap string string -> Headers.t
}.

Module Request.
(** The request configuration that the interceptors see and that the
    HTTP adapter sends. *)
Record t : Type := mk {
  method : Method;
  baseURL : string;
  url : string;
  data : option Body;
  timeout : Z;
  headers : Headers.t
}.

(** [config.headers[name] = value]: the header of that name, in whatever
    case it was there before, has the new value in the request that
    leaves. *)
Definition set_header (name value : string) (r : t) : t :=
  mk (method r) (baseURL r) (url r) (data r) (timeout r)
     (<[name := value]> (headers r)).
End Request.

(** What comes back from the adapter for one request: the decoded body
    of a successful response, or the library's error. *)
Definition Adapter (T : Type) : Type := Request.t -> AxiosError.t + T.

(** ** The client object and the world around it *)

Module AxiosInstance.
Record t : Type := mk {
  baseURL : string;
  timeout : Z;
  headers : Headers.t
}.
End AxiosInstance.

Module ZuthClientState.
Record t : Type := mk {
  config : ZuthConfig.t;
  axiosInstance : AxiosInstance.t;
  accessToken : option string
}.
End ZuthClientState.

Module World.
(** [client] is the one [ZuthClient] that the facade, [ZuthAuth] and
    [ZuthOAuth] share; [network] lists the requests handed to the
    adapter, latest first; [console] the warnings printed. *)
Record t : Type := mk {
  client : ZuthClientState.t;
  network : list Request.t;
  console : list string
}.
End World.

(** State and exceptions: the state survives a [throw]. *)
Definition M (A : Type) : Type := World.t -> Result A * World.t.

Definition ret {A} (a : A) : M A := fun w => (Ok a, w).

Definition throw {A} (e : JsError) : M A := fun w => (Throw e, w).

Definition bind {A B} (m : M A) (k : A -> M B) : M B :=
  fun w =>
    match m w with
    | (Ok a, w') => k a w'
    | (Throw e, w') => (Throw e, w')
    end.

(** A synchronous helper that may throw, called from a method. *)
Definition lift {A} (r : Result A) : M A := fun w => (r, w).

#[global] Instance M_ret : MRet M := @ret.
#[global] Instance M_bind : MBind M := fun A B k m => bind m k.

Definition console_warn (line : string) : M unit :=
  fun w => (Ok tt, World.mk (World.client w) (World.network w)
                     (line :: World.console w)).

(** ** Transport ([src/client.ts]) *)

Module ZuthClient.

(** [axios.create({ baseURL, timeout, headers })], where [headers] is
    the object [{ 'Content-Type': 'application/json', ...config.headers }]:
    a key of [config.headers] spelled exactly Content-Type replaces the
    first entry. *)
Definition constructor `{Axios} (config : ZuthConfig.t) : ZuthClientState.t :=
  ZuthClientState.mk config
    (AxiosInstance.mk
       (ZuthConfig.baseUrl config)
       (or_default_num (ZuthConfig.timeout config) 30000)
       (axios_create_headers
          (match ZuthConfig.headers config with
           | Some hs => hs ∪ {[ "Content-Type" := "application/json" ]}
           | None => {[ "Content-Type" := "application/json" ]}
           end)))
    None.

(** Request interceptor. *)
Definition request_interceptor (accessToken : option string)
    (config : Request.t) : Request.t :=
  match accessToken with
  | Some token =>
      if truthy_string token
      then Request.set_header "Authorization" ("Bearer " ++ token) config
      else config
  | None => config
  end.

(** Response interceptor, error side: what it throws for [error]. With
    a response it reads the fields of the body; a body that is [null]
    makes the first read throw. *)
Definition response_interceptor_rejected (error : AxiosError.t) : JsError :=
  match AxiosError.response error with
  | Some response =>
      match AxiosResponse.data response with
      | ObjectBody zuthError =>
          SDKError
            (ZuthSDKError.mk
               (or_default (ZuthError.message zuthError) "An error occurred")
               (or_default_num (ZuthError.statusCode zuthError)
                  (AxiosResponse.status response))
               (or_default (ZuthError.error zuthError) "UnknownError")
               (ZuthError.details zuthError))
      | NullBody message => TypeError message
      | OtherBody (inl message) => TypeError message
      | OtherBody (inr thrown) => SDKError thrown
      end
  | None =>
      if AxiosError.request error
      then SDKError
             (ZuthSDKError.mk "Network error: Unable to reach the server"
                0 "NetworkError" None)
      else SDKError
             (ZuthSDKError.mk
                (or_default (AxiosError.message error)
                   "An unexpected error occurred")
                0 "UnknownError" None)
  end.

Definition setAccessToken (token : option string) : M unit :=
  fun w =>
    let c := World.client w in
    (Ok tt,
     World.mk (ZuthClientState.mk (ZuthClientState.config c)
                 (ZuthClientState.axiosInstance c) token)
       (World.network w) (World.console w)).

Definition getAccessToken : M (option string) :=
  fun w => (Ok (ZuthClientState.accessToken (World.client w)), w).

Definition clearAccessToken : M unit := setAccessToken None.

Definition getBaseUrl (c : ZuthClientState.t) : string :=
  ZuthConfig.baseUrl (ZuthClientState.config c).

(** One call on the axios instance: the instance's settings make the
    request configuration, the request interceptor runs, the adapter
    sends, and a failure goes through the response interceptor. The
    per-call [config] argument of the source's methods is left out: no
    caller in the repository passes it. *)
Definition request {T} (adapter : Adapter T) (method : Method)
    (url : string) (data : option Body) : M T :=
  fun w =>
    let c := World.client w in
    let inst := ZuthClientState.axiosInstance c in
    let config :=
      request_interceptor (ZuthClientState.accessToken c)
        (Request.mk method (AxiosInstance.baseURL inst) url data
           (AxiosInstance.timeout inst) (AxiosInstance.headers inst)) in
    let w' := World.mk c (config :: World.network w) (World.console w) in
    match adapter config with
    | inr body => (Ok body, w')
    | inl error => (Throw (response_interceptor_rejected error), w')
    end.

Definition get {T} (adapter : Adapter T) (url : string) : M T :=
  request adapter GET url None.

Definition post {T} (adapter : Adapter T) (url : string)
    (data : option Body) : M T :=
  request adapter POST url data.

Definition put {T} (adapter : Adapter T) (url : string)
    (data : option Body) : M T :=
  request adapter PUT url data.

Definition delete {T} (adapter : Adapter T) (url : string) : M T :=
  request adapter DELETE url None.

End ZuthClient.

(** ** Password login ([src/auth.ts]) *)

Module ZuthAuth.

Definition login `{Platform} (adapter : Adapter LoginResponse.t)
    (data : LoginRequest.t) : M LoginResponse.t :=
  if negb (Security.isValidEmail (LoginRequest.email data))
  then throw (Error "Invalid email format")
  else
    let sanitizedData :=
      LoginRequest.mk
        (Security.sanitizeInput
           (String_trim (String_toLowerCase (LoginRequest.email data))))
        (LoginRequest.password data) in
    response ← ZuthClient.post adapter "/auth/login"
                 (Some (LoginBody sanitizedData));
    ZuthClient.setAccessToken (Some (LoginResponse.access_token response));;
    mret response.

(** [try { await post('/auth/logout') } finally { clearAccessToken() }]. *)
Definition logout (adapter : Adapter unit) : M unit :=
  fun w =>
    let (outcome, w') := ZuthClient.post adapter "/auth/logout" None w in
    let (_, w'') := ZuthClient.clearAccessToken w' in
    (outcome, w'').

End ZuthAuth.

(** ** OAuth flow coordinator (the revision with CSRF protection) *)

Module ZuthOAuth.

Definition unvalidated_state_warning : string :=
  "⚠️ Security Warning: OAuth state parameter received but not validated. "
  ++ "This may leave your application vulnerable to CSRF attacks. "
  ++ "Always validate the state parameter by passing originalState to handleCallback.".

(** The entries of the [URLSearchParams] object, in insertion order. *)
Definition authorization_query (params : OAuthAuthorizeParams.t)
    (state : string) : list (string * string) :=
  [ ("client_id", OAuthAuthorizeParams.clientId params);
    ("redirect_uri", OAuthAuthorizeParams.redirectUri params);
    ("response_type",
      match OAuthAuthorizeParams.responseType params with
      | Some r => ResponseType_string r
      | None => "code"
      end);
    ("scope", or_default (OAuthAuthorizeParams.scope params)
                "openid profile email");
    ("state", state) ].

Definition getAuthorizationUrl `{Platform} (client : ZuthClientState.t)
    (rnd : nat -> byte) (params : OAuthAuthorizeParams.t)
    (allowedOrigins : option (list string))
  : Result OAuthAuthorizationResult.t :=
  match
    match allowedOrigins with
    | Some origins =>
        if (0 <? List.length origins)%nat
        then Security.validateRedirectUri
               (OAuthAuthorizeParams.redirectUri params) origins
        else Ok tt
    | None => Ok tt
    end
  with
  | Throw e => Throw e
  | Ok _ =>
      let state :=
        match if_truthy (OAuthAuthorizeParams.state params) with
        | Some given => given
        | None => Security.generateOAuthState rnd
        end in
      let baseUrl := ZuthClient.getBaseUrl client in
      let queryParams := authorization_query params state in
      Ok (OAuthAuthorizationResult.mk
            (baseUrl ++ "/oauth/authorize?"
             ++ URLSearchParams_toString queryParams)
            state)
  end.

Definition exchangeCodeForToken (adapter : Adapter OAuthTokenResponse.t)
    (data : OAuthTokenRequest.t) : M OAuthTokenResponse.t :=
  response ← ZuthClient.post adapter "/oauth/token"
               (Some (TokenBody data
                        (match OAuthTokenRequest.grantType data with
                         | Some g => GrantType_string g
                         | None => "authorization_code"
                         end)));
  (if truthy_string (OAuthTokenResponse.access_token response)
   then ZuthClient.setAccessToken
          (Some (OAuthTokenResponse.access_token response))
   else mret tt);;
  mret response.

Definition refreshToken (adapter : Adapter OAuthTokenResponse.t)
    (refreshToken clientId : string) : M OAuthTokenResponse.t :=
  response ← ZuthClient.post adapter "/oauth/token"
               (Some (RefreshBody "refresh_token" refreshToken clientId));
  (if truthy_string (OAuthTokenResponse.access_token response)
   then ZuthClient.setAccessToken
          (Some (OAuthTokenResponse.access_token response))
   else mret tt);;
  mret response.

Definition handleCallback `{Platform} (adapter : Adapter OAuthTokenResponse.t)
    (url clientId : string) (clientSecret redirectUri : option string)
    (originalState : option string) : M OAuthTokenResponse.t :=
  match new_URL url with
  | InvalidURL m => throw (TypeError m)
  | ParsedURL urlObj =>
      let code := URLSearchParams_get "code" (URL.searchParams urlObj) in
      let error := URLSearchParams_get "error" (URL.searchParams urlObj) in
      let receivedState :=
        URLSearchParams_get "state" (URL.searchParams urlObj) in
      match if_truthy error, if_truthy code with
      | Some error, _ => throw (Error ("OAuth error: " ++ error))
      | None, None =>
          throw (Error "Authorization code not found in callback URL")
      | None, Some code =>
          match if_truthy originalState with
          | Some originalState =>
              lift (Security.validateOAuthState receivedState originalState)
          | None =>
              if truthy receivedState
              then console_warn unvalidated_state_warning
              else mret tt
          end;;
          exchangeCodeForToken adapter
            (OAuthTokenRequest.mk code clientId clientSecret
               (or_default redirectUri
                  (URL.origin urlObj ++ URL.pathname urlObj))
               None)
      end
  end.

End ZuthOAuth.

(** ** OAuth flow coordinator ([src/oauth.ts], the revision without the
    state check) *)

Module LegacyOAuth.

Definition authorization_query (params : OAuthAuthorizeParams.t)
  : list (string * string) :=
  [ ("client_id", OAuthAuthorizeParams.clientId params);
    ("redirect_uri", OAuthAuthorizeParams.redirectUri params);
    ("response_type",
      match OAuthAuthorizeParams.responseType params with
      | Some r => ResponseType_string r
      | None => "code"
      end);
    ("scope", or_default (OAuthAuthorizeParams.scope params)
                "openid profile email") ]
  ++ match if_truthy (OAuthAuthorizeParams.state params) with
     | Some state => [("state", state)]
     | None => []
     end.

Definition getAuthorizationUrl (client : ZuthClientState.t)
    (params : OAuthAuthorizeParams.t) : string :=
  ZuthClient.getBaseUrl client ++ "/oauth/authorize?"
  ++ URLSearchParams_toString (authorization_query params).

Definition handleCallback `{Platform} (adapter : Adapter OAuthTokenResponse.t)
    (url clientId : string) (clientSecret redirectUri : option string)
  : M OAuthTokenResponse.t :=
  match new_URL url with
  | InvalidURL m => throw (TypeError m)
  | ParsedURL urlObj =>
      let code := URLSearchParams_get "code" (URL.searchParams urlObj) in
      let error := URLSearchParams_get "error" (URL.searchParams urlObj) in
      match if_truthy error, if_truthy code with
      | Some error, _ => throw (Error ("OAuth error: " ++ error))
      | None, None =>
          throw (Error "Authorization code not found in callback URL")
      | None, Some code =>
          ZuthOAuth.exchangeCodeForToken adapter
            (OAuthTokenRequest.mk code clientId clientSecret
               (or_default redirectUri
                  (URL.origin urlObj ++ URL.pathname urlObj))
               None)
      end
  end.

End LegacyOAuth.

(** ** Facade ([src/index.ts]) *)

Module Zuth.

Definition trailing_slash : RegExp := mkRegExp "\/$" false.

(** The constructor: the client that [auth] and [oauth] share, in a
    world where nothing has been sent or printed yet. *)
Definition constructor `{Platform} `{Axios} (config : ZuthConfig.t)
  : Result World.t :=
  if negb (truthy_string (ZuthConfig.baseUrl config))
  then Throw (Error "baseUrl is required in Zuth configuration")
  else
    let normalizedConfig :=
      ZuthConfig.mk
        (String_replace trailing_slash (ZuthConfig.baseUrl config) "")
        (ZuthConfig.clientId config)
        (ZuthConfig.clientSecret config)
        (ZuthConfig.redirectUri config)
        (ZuthConfig.timeout config)
        (ZuthConfig.headers config) in
    Ok (World.mk (ZuthClient.constructor normalizedConfig) [] []).

Definition setAccessToken (token : string) : M unit :=
  ZuthClient.setAccessToken (Some token).

Definition isAuthenticated : M bool :=
  token ← ZuthClient.getAccessToken;
  mret (match token with Some _ => true | None => false end).

Definition clearAuth : M unit := ZuthClient.clearAccessToken.

End Zuth.

(** ** The error kinds of the specification

    The source throws plain [Error] objects and tells them apart by
    their messages; a kind of the specification is the set of [Error]s
    that the corresponding throw sites build. *)

Definition CsrfError (e : JsError) : Prop :=
  e = Error Security.state_missing_message
  \/ e = Error Security.state_mismatch_message.

Definition RedirectError (redirectUri : string) (allowedOrigins : list string)
    (e : JsError) : Prop :=
  e = Error (Security.redirect_not_allowed_message redirectUri allowedOrigins)
  \/ e = Error ("Invalid redirect URI: " ++ redirectUri).

Definition InsecureUrlError (url : string) (e : JsError) : Prop :=
  e = Error Security.insecure_url_message
  \/ e = Error ("Invalid URL: " ++ url).


(** The URLs that [validateSecureUrl] lets through. *)
Definition secure_or_loopback (allowLocalhost : bool) (u : URL.t) : Prop :=
  URL.protocol u = "https:"
  \/ (allowLocalhost = true
      /\ (URL.hostname u = "localhost" \/ URL.hostname u = "127.0.0.1")).

(** A lower-case hexadecimal digit. *)
Definition is_hex_digit (c : ascii) : bool :=
  let n := N_of_ascii c in
  ((48 <=? n) && (n <=? 57) || (97 <=? n) && (n <=? 102))%N.

(** ** Observations on a world *)

(** The request that one call hands to the adapter. *)
Definition outgoing (w : World.t) (method : Method) (url : string)
    (data : option Body) : Request.t :=
  let c := World.client w in
  let inst := ZuthClientState.axiosInstance c in
  ZuthClient.request_interceptor (ZuthClientState.accessToken c)
    (Request.mk method (AxiosInstance.baseURL inst) url data
       (AxiosInstance.timeout inst) (AxiosInstance.headers inst)).

(** A call on the transport: method, path and body. *)
Definition Call : Type := Method * string * option Body.

(** The calls of [calls] made one after the other, whatever each one
    returns or throws. *)
Fixpoint send_all {T} (adapter : Adapter T) (calls : list Call) (w : World.t)
  : World.t :=
  match calls with
  | [] => w
  | (method, url, data) :: rest =>
      send_all adapter rest (ZuthClient.request adapter method url data w).2
  end.

(** The request that the axios instance builds for a call when no
    interceptor touches it. *)
Definition plain_request (inst : AxiosInstance.t) (call : Call) : Request.t :=
  let '(method, url, data) := call in
  Request.mk method (AxiosInstance.baseURL inst) url data
    (AxiosInstance.timeout inst) (AxiosInstance.headers inst).

(** The content of the transport's token slot. *)
Definition token_slot (w : World.t) : option string :=
  ZuthClientState.accessToken (World.client w).

(** The world after [this.accessToken = token]. *)
Definition with_token (token : option string) (w : World.t) : World.t :=
  World.mk
    (ZuthClientState.mk (ZuthClientState.config (World.client w))
       (ZuthClientState.axiosInstance (World.client w)) token)
    (World.network w) (World.console w).

(** The world after [request] has been handed to the adapter. *)
Definition after_sending (request : Request.t) (w : World.t) : World.t :=
  World.mk (World.client w) (request :: World.network w) (World.console w).

(** The body of the code-for-token exchange. *)
Definition exchange_body (data : OAuthTokenRequest.t) : option Body :=
  Some (TokenBody data
          (match OAuthTokenRequest.grantType data with
           | Some g => GrantType_string g
           | None => "authorization_code"
           end)).

(** Every outcome of the two token requests: a failure leaves the slot
    alone, a response with a non-empty access token fills it, a response
    with an empty one leaves it alone as well. *)
Definition token_request_outcome (adapter : Adapter OAuthTokenResponse.t)
    (request : Request.t) (w : World.t)
  : Result OAuthTokenResponse.t * World.t :=
  match adapter request with
  | inl error =>
      (Throw (ZuthClient.response_interceptor_rejected error),
       after_sending request w)
  | inr response =>
      (Ok response,
       if truthy_string (OAuthTokenResponse.access_token response)
       then with_token (Some (OAuthTokenResponse.access_token response))
              (after_sending request w)
       else after_sending request w)
  end.

(** Bytes that may occur in a serialised query component. *)
Definition query_safe (c : ascii) : bool :=
  urlencoded_safe c || Ascii.eqb c "+" || Ascii.eqb c "%".

(** ** A platform for the worked examples

    The string operations below are those of a JavaScript runtime on
    ASCII text; the URL parser is given by the list of the URLs an
    example uses, each with the object that [new URL] builds for it, and
    answers as Node.js and Chromium do ("Invalid URL") for any other
    string. *)

Module Sample.

Definition is_space (c : ascii) : bool :=
  let n := N_of_ascii c in
  ((n =? 32) || (9 <=? n) && (n <=? 13))%N.

Fixpoint split_once (sep : ascii) (s : string) : option (string * string) :=
  match s with
  | EmptyString => None
  | String c rest =>
      if Ascii.eqb c sep then Some ("", rest)
      else match split_once sep rest with
           | Some (before, after) => Some (String c before, after)
           | None => None
           end
  end.

Fixpoint inner_dot (first : bool) (s : string) : bool :=
  match s with
  | EmptyString => false
  | String c rest =>
      if Ascii.eqb c "." && negb first && negb (String.eqb rest "")
      then true
      else inner_dot false rest
  end.

(** [/^[^\s@]+@[^\s@]+\.[^\s@]+$/.test(s)]. *)
Definition email_test (s : string) : bool :=
  match split_once "@" s with
  | Some (local, domain) =>
      negb (String.eqb local "")
      && every_char (fun c => negb (is_space c)) local
      && every_char (fun c => negb (is_space c || Ascii.eqb c "@")) domain
      && inner_dot true domain
  | None => false
  end.

(** [s.replace(/<[^>]*>/g, '')]; [pending] is the text read since an
    opening [<] that has not been closed yet. *)
Fixpoint strip_tags (pending : option string) (s : string) : string :=
  match s, pending with
  | EmptyString, None => ""
  | EmptyString, Some p => p
  | String c rest, None =>
      if Ascii.eqb c "<" then strip_tags (Some "<") rest
      else String c (strip_tags None rest)
  | String c rest, Some p =>
      if Ascii.eqb c ">" then strip_tags None rest
      else strip_tags (Some (p ++ String c "")) rest
  end.

Fixpoint remove_chars (p : ascii -> bool) (s : string) : string :=
  match s with
  | EmptyString => ""
  | String c rest =>
      if p c then remove_chars p rest else String c (remove_chars p rest)
  end.

Definition is_dangerous (c : ascii) : bool :=
  Ascii.eqb c "<" || Ascii.eqb c ">" || Ascii.eqb c "'"
  || Ascii.eqb c (ascii_of_nat 34).

Fixpoint drop_last_slash (s : string) : string :=
  match s with
  | EmptyString => ""
  | String c rest =>
      if Ascii.eqb c "/" && String.eqb rest "" then ""
      else String c (drop_last_slash rest)
  end.

Definition replace (re : RegExp) (s replacement : string) : string :=
  if String.eqb (source re) (source Security.html_tag)
  then strip_tags None s
  else if String.eqb (source re) (source Security.dangerous_character)
  then remove_chars is_dangerous s
  else if String.eqb (source re) (source Zuth.trailing_slash)
  then drop_last_slash s
  else s.

Fixpoint trim_start (s : string) : string :=
  match s with
  | EmptyString => ""
  | String c rest => if is_space c then trim_start rest else s
  end.

Fixpoint trim_end (s : string) : string :=
  match s with
  | EmptyString => ""
  | String c rest =>
      match trim_end rest with
      | EmptyString => if is_space c then "" else String c ""
      | kept => String c kept
      end
  end.

Definition lower (c : ascii) : ascii :=
  let n := N_of_ascii c in
  if ((65 <=? n) && (n <=? 90))%N then ascii_of_N (n + 32) else c.

Fixpoint toLowerCase (s : string) : string :=
  match s with
  | EmptyString => ""
  | String c rest => String (lower c) (toLowerCase rest)
  end.

Fixpoint lookup_url (s : string) (urls : list (string * URL.t))
  : option URL.t :=
  match urls with
  | [] => None
  | (text, u) :: rest =>
      if String.eqb text s then Some u else lookup_url s rest
  end.

Definition platform (urls : list (string * URL.t)) : Platform :=
  {| new_URL := fun s =>
       match lookup_url s urls with
       | Some u => ParsedURL u
       | None => InvalidURL "Invalid URL"
       end;
     RegExp_test := fun re s =>
       String.eqb (source re) (source Security.emailRegex) && email_test s;
     String_replace := replace;
     String_toLowerCase := toLowerCase;
     String_trim := fun s => trim_end (trim_start s) |}.

(** [new URL("https://app.test/cb" + query)]. *)
Definition callback_url (query : list (string * string)) : URL.t :=
  URL.mk "https:" "app.test" "app.test" "https://app.test" "/cb" query.

Definition urls : list (string * URL.t) :=
  [ ("https://app.test/cb", callback_url []);
    ("https://app.test/cb?code=abc&state=S",
      callback_url [("code", "abc"); ("state", "S")]);
    ("https://app.test/cb?code=abc&state=WRONG",
      callback_url [("code", "abc"); ("state", "WRONG")]);
    ("https://app.test/cb?code=abc",
      callback_url [("code", "abc")]);
    ("https://app.test/cb?error=access_denied&state=WRONG",
      callback_url [("error", "access_denied"); ("state", "WRONG")]);
    ("https://app.test/cb?error=&code=abc",
      callback_url [("error", ""); ("code", "abc")]);
    ("https://app.test/cb?state=WRONG",
      callback_url [("state", "WRONG")]);
    ("http://localhost:3000/api",
      URL.mk "http:" "localhost" "localhost:3000" "http://localhost:3000"
        "/api" []);
    ("http://api.zuth.example.com/",
      URL.mk "http:" "api.zuth.example.com" "api.zuth.example.com"
        "http://api.zuth.example.com" "/" []);
    ("https://api.zuth.example.com/",
      URL.mk "https:" "api.zuth.example.com" "api.zuth.example.com"
        "https://api.zuth.example.com" "/" []) ].

Definition node : Platform := platform urls.

Definition config : ZuthConfig.t :=
  ZuthConfig.mk "https://api.zuth.example.com/" None None None None None.

(** An HTTP library for the examples: it keeps the headers it is given
    under their lower-case names and adds its default Accept header. *)
Definition axios : Axios :=
  {| axios_create_headers := fun given =>
       Headers.mk
         (list_to_map
            (List.map (fun entry => (Headers.normalize entry.1, entry.2))
               (map_to_list given))
          ∪ {[ "accept" := "application/json, text/plain, */*" ]}) |}.

(** The world right after [new Zuth(config)] on [node]. *)
Definition fresh : World.t :=
  World.mk
    (@ZuthClient.constructor axios
       (ZuthConfig.mk "https://api.zuth.example.com" None None None None
          None))
    [] [].

Definition token_response (access_token : string) : OAuthTokenResponse.t :=
  OAuthTokenResponse.mk access_token "Bearer" 3600 None None None.

(** A server that answers every token request with the token [t1]. *)
Definition token_server : Adapter OAuthTokenResponse.t :=
  fun _ => inr (token_response "t1").

Definition alice : User.t :=
  User.mk "u1" "user@example.com" None "user" None None
    "2024-01-01T00:00:00Z".

Definition login_server : Adapter LoginResponse.t :=
  fun _ => inr (LoginResponse.mk "t0" alice None).

Definition zeros : nat -> byte := fun _ => x00.

End Sample.

(** ** Session and MFA methods ([src/auth.ts])

    The methods of [ZuthAuth] that send no body, or a body that the
    transport above can carry. *)

Module Session.
Record t : Type := mk {
  id : string;
  device : string;
  ipAddress : string;
  lastUsedAt : string;
  isCurrent : option bool
}.
End Session.

Module SessionsResponse.
(** [{ sessions: Session[] }], the body of [GET /auth/sessions]. *)
Record t : Type := mk { sessions : list Session.t }.
End SessionsResponse.

Module MfaSetupResponse.
Record t : Type := mk {
  qrCode : string;
  manualEntryKey : string;
  backupCodes : option (list string)
}.
End MfaSetupResponse.

Module SessionCheck.
(** [{ valid: boolean; user?: User }]. *)
Record t : Type := mk { valid : bool; user : option User.t }.
End SessionCheck.

(** [error.statusCode] of a caught value: only a [ZuthSDKError] has
    the property. *)
Definition error_statusCode (e : JsError) : option Z :=
  match e with
  | SDKError s => Some (ZuthSDKError.statusCode s)
  | _ => None
  end.

Module ZuthAuthSession.

Definition getCurrentUser (adapter : Adapter User.t) : M User.t :=
  ZuthClient.get adapter "/auth/me".

(** [try { user = await getCurrentUser() } catch (error) { ... }]. *)
Definition checkSession (adapter : Adapter User.t) : M SessionCheck.t :=
  fun w =>
    match getCurrentUser adapter w with
    | (Ok user, w') => (Ok (SessionCheck.mk true (Some user)), w')
    | (Throw error, w') =>
        match error_statusCode error with
        | Some code =>
            if Z.eqb code 401
            then (Ok (SessionCheck.mk false None), w')
            else (Throw error, w')
        | None => (Throw error, w')
        end
    end.

Definition getActiveSessions (adapter : Adapter SessionsResponse.t)
  : M (list Session.t) :=
  response ← ZuthClient.get adapter "/auth/sessions";
  mret (SessionsResponse.sessions response).

Definition revokeSession {T} (adapter : Adapter T) (sessionId : string)
  : M unit :=
  ZuthClient.post adapter ("/auth/sessions/" ++ sessionId ++ "/revoke") None;;
  mret tt.

Definition setupMfa (adapter : Adapter MfaSetupResponse.t)
  : M MfaSetupResponse.t :=
  ZuthClient.post adapter "/auth/mfa/setup" None.

Definition setupEmailMfa {T} (adapter : Adapter T) : M unit :=
  ZuthClient.post adapter "/auth/mfa/setup/email" None;;
  mret tt.

Definition sendEmailMfaCode {T} (adapter : Adapter T) : M unit :=
  ZuthClient.post adapter "/auth/mfa/email/send-code" None;;
  mret tt.

End ZuthAuthSession.

(** ** Discovery and the browser redirect (both revisions of
    [oauth.ts]) *)

Module Window.
(** The global [window], as far as the SDK touches it. *)
Record t : Type := mk { location_href : string }.
End Window.

Module ZuthOAuthBrowser.

Definition getOidcConfiguration (adapter : Adapter Json) : M Json :=
  ZuthClient.get adapter "/.well-known/openid-configuration".

Definition not_a_browser_message : string :=
  "redirectToAuthorization can only be used in browser environments".

(** [window] is [None] where [typeof window === 'undefined']. The second
    component is the window after the call. *)
Definition redirectToAuthorization `{Platform} (window : option Window.t)
    (client : ZuthClientState.t) (rnd : nat -> byte)
    (params : OAuthAuthorizeParams.t) (allowedOrigins : option (list string))
  : Result string * option Window.t :=
  match window with
  | None => (Throw (Error not_a_browser_message), None)
  | Some win =>
      match ZuthOAuth.getAuthorizationUrl client rnd params allowedOrigins with
      | Throw e => (Throw e, Some win)
      | Ok result =>
          (Ok (OAuthAuthorizationResult.state result),
           Some (Window.mk (OAuthAuthorizationResult.url result)))
      end
  end.

(** The revision without the state check: no allow-list, no result. *)
Definition legacy_redirectToAuthorization (window : option Window.t)
    (client : ZuthClientState.t) (params : OAuthAuthorizeParams.t)
  : Result unit * option Window.t :=
  match window with
  | None => (Throw (Error not_a_browser_message), None)
  | Some win =>
      (Ok tt, Some (Window.mk (LegacyOAuth.getAuthorizationUrl client params)))
  end.

End ZuthOAuthBrowser.

(** ** Further observations *)


(** The request a call makes when the slot holds the non-empty
    [token]. *)
Definition bearer_request (inst : AxiosInstance.t) (token : string)
    (call : Call) : Request.t :=
  Request.set_header "Authorization" ("Bearer " ++ token)
    (plain_request inst call).


(** Every request that [calls] sends from [w] on carries the bearer
    [token]. *)
Definition all_carry_bearer {T} (adapter : Adapter T) (calls : list Call)
    (token : string) (w : World.t) : Prop :=
  exists sent,
    World.network (send_all adapter calls w) = (sent ++ World.network w)%list
    /\ List.length sent = List.length calls
    /\ Forall (fun request =>
                 Request.headers request !! "Authorization"
                 = Some ("Bearer " ++ token)) sent.

(** The value of a lower-case hexadecimal digit. *)
Definition hex_value (c : ascii) : option N :=
  let n := N_of_ascii c in
  if ((48 <=? n) && (n <=? 57))%N then Some (n - 48)%N
  else if ((97 <=? n) && (n <=? 102))%N then Some (n - 87)%N
  else None.

(** Reads back what [render_state] wrote: two digits for each byte. *)
Fixpoint parse_state (s : string) : option (list byte) :=
  match s with
  | EmptyString => Some []
  | String hi (String lo rest) =>
      match hex_value hi, hex_value lo, parse_state rest with
      | Some h, Some l, Some bytes =>
          match Byte.of_N (16 * h + l) with
          | Some b => Some (b :: bytes)
          | None => None
          end
      | _, _, _ => None
      end
  | String _ EmptyString => None
  end.

(** The value of a hexadecimal digit of a percent escape. *)
Definition hex_value_upper (c : ascii) : option N :=
  let n := N_of_ascii c in
  if ((48 <=? n) && (n <=? 57))%N then Some (n - 48)%N
  else if ((65 <=? n) && (n <=? 70))%N then Some (n - 55)%N
  else None.

(** The form-urlencoded parser on one component: [+] is a space, [%XX]
    a byte, anything else itself. *)
Fixpoint urldecode (s : string) : string :=
  match s with
  | EmptyString => ""
  | String c rest =>
      if Ascii.eqb c "+" then String " " (urldecode rest)
      else if Ascii.eqb c "%" then
        match rest with
        | String hi (String lo rest') =>
            match hex_value_upper hi, hex_value_upper lo with
            | Some h, Some l =>
                String (ascii_of_N (16 * h + l)) (urldecode rest')
            | _, _ => String c (urldecode rest)
            end
        | _ => String c (urldecode rest)
        end
      else String c (urldecode rest)
  end.

Module Sample2.

Definition unauthorized : AxiosError.t :=
  AxiosError.mk
    (Some (AxiosResponse.mk 401
             (ObjectBody
                (ZuthError.mk (Some "Unauthorized") (Some "Token expired")
                   None None None None))))
    true None.

(** An HTTP 401 whose body is the JSON value [null]; the message is
    the one of V8. *)
Definition unauthorized_null : AxiosError.t :=
  AxiosError.mk
    (Some (AxiosResponse.mk 401
             (NullBody "Cannot read properties of null (reading 'message')")))
    true None.

(** A world whose application configured an authorization header of
    its own, in lower case. *)
Definition with_basic : World.t :=
  World.mk
    (@ZuthClient.constructor Sample.axios
       (ZuthConfig.mk "https://api.zuth.example.com" None None None None
          (Some {[ "authorization" := "Basic dXNlcjpwdw==" ]})))
    [] [].

(** A runtime whose URL parse error quotes the input, as the one of
    Firefox does. *)
Definition quoting : Platform :=
  {| new_URL := fun s =>
       match Sample.lookup_url s Sample.urls with
       | Some u => ParsedURL u
       | None =>
           InvalidURL ("URL constructor: " ++ s ++ " is not a valid URL.")
       end;
     RegExp_test := @RegExp_test Sample.node;
     String_replace := @String_replace Sample.node;
     String_toLowerCase := @String_toLowerCase Sample.node;
     String_trim := @String_trim Sample.node |}.

(** A server that answers every request with HTTP 401. *)
Definition expired_server {T} : Adapter T := fun _ => inl unauthorized.

(** A server that cannot be reached. *)
Definition unreachable_server {T} : Adapter T :=
  fun _ => inl (AxiosError.mk None true (Some "connect ECONNREFUSED")).

Definition user_server : Adapter User.t := fun _ => inr Sample.alice.

(** The world of [Sample.fresh] after a login that returned [t0]. *)
Definition logged_in : World.t := with_token (Some "t0") Sample.fresh.

Definition ones : nat -> byte := fun _ => x01.

(** A source that agrees with [Sample.zeros] on the 32 cells drawn. *)
Definition zeros_then_ones : nat -> byte :=
  fun i => if (i <? 32)%nat then x00 else x01.

End Sample2.

(** * Properties *)

Ltac unfold_monad :=
  cbv [mbind M_bind bind mret M_ret ret throw lift].

(** ** Strings *)

Lemma truthy_string_true (s : string) : truthy_string s = true <-> s <> "".
Proof.
  unfold truthy_string. rewrite negb_true_iff.
  split; intro Hs.
  - intros ->. discriminate Hs.
  - apply String.eqb_neq. exact Hs.
Qed.

Lemma truthy_string_false (s : string) : truthy_string s = false <-> s = "".
Proof.
  unfold truthy_string. rewrite negb_false_iff. apply String.eqb_eq.
Qed.

Lemma if_truthy_Some (v : option string) (s : string) :
  if_truthy v = Some s <-> v = Some s /\ s <> "".
Proof.
  destruct v as [t|]; simpl.
  - destruct (truthy_string t) eqn:Ht.
    + apply truthy_string_true in Ht. split.
      * intros [= ->]. auto.
      * intros [[= ->] _]. reflexivity.
    + apply truthy_string_false in Ht. subst t. split.
      * discriminate.
      * intros [[= <-] Hne]. contradiction.
  - split; [discriminate | intros [[=] _]].
Qed.

Lemma if_truthy_None (v : option string) :
  if_truthy v = None <-> v = None \/ v = Some "".
Proof.
  destruct v as [t|]; simpl.
  - destruct (truthy_string t) eqn:Ht.
    + apply truthy_string_true in Ht. split; [discriminate|].
      intros [[=] | [= ->]]. contradiction.
    + apply truthy_string_false in Ht. subst t. split; auto.
  - split; auto.
Qed.


Lemma String_includes_prefix (search rest : string) :
  String_includes search (search ++ rest) = true.
Proof.
  assert (Hp : String.prefix search (search ++ rest) = true).
  { induction search as [|c search IH]; simpl.
    - destruct rest; reflexivity.
    - destruct (ascii_dec c c) as [_|Hne]; [exact IH | contradiction]. }
  destruct (search ++ rest); simpl in *; rewrite Hp; reflexivity.
Qed.

Lemma Array_includes_In (l : list string) (x : string) :
  Security.Array_includes l x = true <-> In x l.
Proof.
  unfold Security.Array_includes. rewrite existsb_exists. split.
  - intros [y [Hy Heq]]. apply String.eqb_eq in Heq. subst y. exact Hy.
  - intro Hx. exists x. split; [exact Hx | apply String.eqb_refl].
Qed.

Lemma concat_empty_cons (x : string) (l : list string) :
  String.concat "" (x :: l) = x ++ String.concat "" l.
Proof.
  destruct l as [|y l]; simpl; [|reflexivity].
  induction x as [|c x IH]; simpl; [reflexivity | f_equal; exact IH].
Qed.

Lemma every_char_app (p : ascii -> bool) (s t : string) :
  every_char p (s ++ t) = every_char p s && every_char p t.
Proof.
  induction s as [|c s IH]; simpl; [reflexivity|].
  rewrite IH. apply andb_assoc.
Qed.

Lemma String_length_app (s t : string) :
  String.length (s ++ t) = (String.length s + String.length t)%nat.
Proof. induction s as [|c s IH]; simpl; [reflexivity | rewrite IH; reflexivity]. Qed.

(** ** Secure-value utilities *)

Lemma render_byte_digits (b : byte) :
  Security.render_byte b =
  String (hex_digit_lower (Byte.to_N b / 16))
    (String (hex_digit_lower (Byte.to_N b mod 16)) "").
Proof. destruct b; reflexivity. Qed.

Lemma hex_digit_lower_is_hex (d : N) :
  is_hex_digit (hex_digit_lower d) = true.
Proof.
  unfold hex_digit_lower.
  destruct (N.to_nat d) as [|[|[|[|[|[|[|[|[|[|[|[|[|[|[|[|n]]]]]]]]]]]]]]]];
    try reflexivity.
Qed.

Lemma render_byte_length (b : byte) :
  String.length (Security.render_byte b) = 2%nat.
Proof. rewrite render_byte_digits. reflexivity. Qed.

Lemma render_byte_hex (b : byte) :
  every_char is_hex_digit (Security.render_byte b) = true.
Proof.
  rewrite render_byte_digits. simpl.
  rewrite !hex_digit_lower_is_hex. reflexivity.
Qed.

Lemma render_state_length (array : list byte) :
  String.length (Security.render_state array) = (2 * List.length array)%nat.
Proof.
  unfold Security.render_state.
  induction array as [|b array IH]; [reflexivity|].
  rewrite map_cons, concat_empty_cons, String_length_app, IH, render_byte_length.
  simpl. lia.
Qed.

Lemma render_state_hex (array : list byte) :
  every_char is_hex_digit (Security.render_state array) = true.
Proof.
  unfold Security.render_state.
  induction array as [|b array IH]; [reflexivity|].
  rewrite map_cons, concat_empty_cons, every_char_app, IH, render_byte_hex.
  reflexivity.
Qed.

Lemma getRandomValues_length (rnd : nat -> byte) (array : list byte) :
  List.length (Security.getRandomValues rnd array) = List.length array.
Proof.
  unfold Security.getRandomValues.
  rewrite List.length_map, List.length_seq. reflexivity.
Qed.





(** C6, as stated, fails: an empty received state that equals an empty
    original state is rejected as missing. *)
Lemma validateOAuthState_empty_state_rejected :
  Security.validateOAuthState (Some "") "" =
    Throw (Error "OAuth state parameter is missing. This may indicate a CSRF attack.")
  /\ Security.validateOAuthState (Some "") "" <> Ok tt.
Proof. split; [reflexivity | discriminate]. Qed.

(** C6, amended. [validateOAuthState] succeeds exactly when the received
    state is present, not empty and byte for byte the original one; an
    absent or empty received state is rejected as missing, any other
    difference as a mismatch, and both rejections are [CsrfError]s. *)
Theorem validateOAuthState_exact (received : option string) (original : string) :
  (Security.validateOAuthState received original = Ok tt
   <-> received = Some original /\ original <> "")
  /\ (received = None \/ received = Some "" ->
      Security.validateOAuthState received original =
        Throw (Error Security.state_missing_message))
  /\ (forall r, received = Some r -> r <> "" -> r <> original ->
      Security.validateOAuthState received original =
        Throw (Error Security.state_mismatch_message))
  /\ (forall e, Security.validateOAuthState received original = Throw e ->
      CsrfError e).
Proof.
  unfold Security.validateOAuthState, CsrfError.
  destruct received as [r|]; simpl.
  - destruct (truthy_string r) eqn:Hr; simpl.
    + apply truthy_string_true in Hr.
      destruct (String.eqb r original) eqn:Heq; simpl.
      * apply String.eqb_eq in Heq. subst original.
        repeat split; auto; try discriminate.
        -- intros [[=] | [= ->]]. contradiction.
        -- intros r' [= <-] _ Hne. contradiction.
      * apply String.eqb_neq in Heq.
        repeat split; auto; try discriminate.
        -- intros [[= ->] _]. contradiction.
        -- intros [[=] | [= ->]]. contradiction.
        -- intros e [= <-]. auto.
    + apply truthy_string_false in Hr. subst r.
      repeat split; auto; try discriminate.
      * intros [[= <-] Hne]. contradiction.
      * intros r' [= <-] Hne. contradiction.
      * intros e [= <-]. auto.
  - repeat split; auto; try discriminate.
    + intros [[=] _].
    + intros e [= <-]. auto.
Qed.

Lemma validateOAuthState_exact_witness :
  Security.validateOAuthState (Some "WRONG") "S" =
    Throw (Error Security.state_mismatch_message).
Proof.
  apply (proj1 (proj2 (proj2 (validateOAuthState_exact (Some "WRONG") "S")))
           "WRONG" eq_refl); discriminate.
Defined.

Lemma redirect_not_allowed_message_marked (redirectUri : string)
    (allowedOrigins : list string) :
  String_includes "Redirect URI"
    (Security.redirect_not_allowed_message redirectUri allowedOrigins) = true.
Proof.
  unfold Security.redirect_not_allowed_message.
  change ("Redirect URI " ++ ?rest) with ("Redirect URI" ++ (" " ++ rest)).
  apply String_includes_prefix.
Qed.

Lemma insecure_url_message_marked :
  String_includes "Insecure URL" Security.insecure_url_message = true.
Proof. reflexivity. Qed.

(** What [validateRedirectUri] does once the URI has been parsed. *)
Lemma validateRedirectUri_parsed `{Platform} (redirectUri : string)
    (allowedOrigins : list string) (u : URL.t) :
  new_URL redirectUri = ParsedURL u ->
  Security.validateRedirectUri redirectUri allowedOrigins =
    if Security.Array_includes allowedOrigins
         (URL.protocol u ++ "//" ++ URL.host u)
    then Ok tt
    else Throw (Error (Security.redirect_not_allowed_message redirectUri
                         allowedOrigins)).
Proof.
  intro Hparse. unfold Security.validateRedirectUri. rewrite Hparse.
  destruct (Security.Array_includes _ _); cbv [negb try_catch error_message];
    [reflexivity|].
  rewrite redirect_not_allowed_message_marked. reflexivity.
Qed.

(** What it does when the URI does not parse: the catch block looks for
    its own marker in the message of the parse error. *)
Lemma validateRedirectUri_unparsed `{Platform} (redirectUri : string)
    (allowedOrigins : list string) (m : string) :
  new_URL redirectUri = InvalidURL m ->
  Security.validateRedirectUri redirectUri allowedOrigins =
    if String_includes "Redirect URI" m
    then Throw (TypeError m)
    else Throw (Error ("Invalid redirect URI: " ++ redirectUri)).
Proof.
  intro Hparse. unfold Security.validateRedirectUri. rewrite Hparse.
  reflexivity.
Qed.

(** C7. On a runtime whose URL parse error quotes its input, the catch
    block of [validateRedirectUri] takes the parse error of the malformed
    URI "Redirect URI" for the allow-list error, which it recognises by
    these words in the message, and throws it again: the caller gets the
    parser's [TypeError] and no [RedirectError]. *)
Theorem validateRedirectUri_rethrows_parse_error :
  let thrown := TypeError "URL constructor: Redirect URI is not a valid URL." in
  @new_URL Sample2.quoting "Redirect URI" =
    InvalidURL "URL constructor: Redirect URI is not a valid URL."
  /\ @Security.validateRedirectUri Sample2.quoting "Redirect URI"
       ["https://app.test"] = Throw thrown
  /\ ~ RedirectError "Redirect URI" ["https://app.test"] thrown.
Proof.
  cbv zeta. split; [reflexivity|]. split; [reflexivity|].
  intros [H | H]; discriminate H.
Qed.

(** What [validateSecureUrl] does once the URL has been parsed. *)
Lemma validateSecureUrl_parsed `{Platform} (url : string)
    (allowLocalhost : bool) (u : URL.t) :
  new_URL url = ParsedURL u ->
  Security.validateSecureUrl url allowLocalhost =
    if allowLocalhost
       && (String.eqb (URL.hostname u) "localhost"
           || String.eqb (URL.hostname u) "127.0.0.1")
       || String.eqb (URL.protocol u) "https:"
    then Ok tt
    else Throw (Error Security.insecure_url_message).
Proof.
  intro Hparse. unfold Security.validateSecureUrl. rewrite Hparse.
  destruct (allowLocalhost && _); simpl; [reflexivity|].
  destruct (String.eqb (URL.protocol u) "https:"); reflexivity.
Qed.

Lemma validateSecureUrl_unparsed `{Platform} (url : string)
    (allowLocalhost : bool) (m : string) :
  new_URL url = InvalidURL m ->
  Security.validateSecureUrl url allowLocalhost =
    if String_includes "Insecure URL" m
    then Throw (TypeError m)
    else Throw (Error ("Invalid URL: " ++ url)).
Proof.
  intro Hparse. unfold Security.validateSecureUrl. rewrite Hparse.
  reflexivity.
Qed.

Lemma secure_or_loopback_decide (allowLocalhost : bool) (u : URL.t) :
  allowLocalhost
  && (String.eqb (URL.hostname u) "localhost"
      || String.eqb (URL.hostname u) "127.0.0.1")
  || String.eqb (URL.protocol u) "https:" = true
  <-> secure_or_loopback allowLocalhost u.
Proof.
  unfold secure_or_loopback.
  rewrite orb_true_iff, andb_true_iff, orb_true_iff, !String.eqb_eq.
  tauto.
Qed.

(** C8. On a runtime whose URL parse error quotes its input, the catch
    block of [validateSecureUrl] takes the parse error of the malformed
    URL "Insecure URL" for the error of the scheme check, which it
    recognises by these words in the message, and throws it again: the
    caller gets the parser's [TypeError] and no [InsecureUrlError]. *)
Theorem validateSecureUrl_rethrows_parse_error :
  let thrown := TypeError "URL constructor: Insecure URL is not a valid URL." in
  @new_URL Sample2.quoting "Insecure URL" =
    InvalidURL "URL constructor: Insecure URL is not a valid URL."
  /\ (forall allowLocalhost,
        @Security.validateSecureUrl Sample2.quoting "Insecure URL"
          allowLocalhost = Throw thrown)
  /\ ~ InsecureUrlError "Insecure URL" thrown.
Proof.
  cbv zeta. split; [reflexivity|]. split; [intros []; reflexivity|].
  intros [H | H]; discriminate H.
Qed.

(** ** Transport *)

Lemma or_default_present (s d : string) : s <> "" -> or_default (Some s) d = s.
Proof.
  intro Hs. unfold or_default.
  destruct (truthy_string s) eqn:Ht; [reflexivity|].
  apply truthy_string_false in Ht. contradiction.
Qed.

Lemma or_default_missing (v : option string) (d : string) :
  v = None \/ v = Some "" -> or_default v d = d.
Proof. intros [-> | ->]; reflexivity. Qed.

Lemma or_default_num_present (n d : Z) : n <> 0%Z -> or_default_num (Some n) d = n.
Proof.
  intro Hn. unfold or_default_num.
  destruct (Z.eqb n 0) eqn:Hz; [|reflexivity].
  apply Z.eqb_eq in Hz. contradiction.
Qed.

Lemma or_default_num_missing (v : option Z) (d : Z) :
  v = None \/ v = Some 0%Z -> or_default_num v d = d.
Proof. intros [-> | ->]; reflexivity. Qed.

Lemma request_outcome {T} (adapter : Adapter T) (method : Method)
    (url : string) (data : option Body) (w : World.t) :
  ZuthClient.request adapter method url data w =
    (match adapter (outgoing w method url data) with
     | inr body => Ok body
     | inl error => Throw (ZuthClient.response_interceptor_rejected error)
     end,
     World.mk (World.client w)
       (outgoing w method url data :: World.network w) (World.console w)).
Proof.
  unfold ZuthClient.request, outgoing.
  destruct (adapter _); reflexivity.
Qed.

Lemma request_keeps_client {T} (adapter : Adapter T) (method : Method)
    (url : string) (data : option Body) (w : World.t) :
  World.client (ZuthClient.request adapter method url data w).2
  = World.client w.
Proof. rewrite request_outcome. reflexivity. Qed.

(** C3, as stated, fails on the message of the no-response case: the
    source prefixes it with "Network error: ". *)
Lemma network_error_message_differs :
  let error := AxiosError.mk None true (Some "timeout of 30000ms exceeded") in
  exists e,
    ZuthClient.response_interceptor_rejected error = SDKError e
    /\ ZuthSDKError.message e = "Network error: Unable to reach the server"
    /\ ZuthSDKError.message e <> "Unable to reach the server".
Proof. eexists. split; [reflexivity|]. split; [reflexivity | discriminate]. Qed.

(** C3, amended. A call on the transport fails exactly when the adapter
    fails, and what the caller then sees is never the HTTP library's
    error. When the server answered with a body whose fields are of the
    declared types, or missing, the caller sees a [ZuthSDKError] whose
    message, status code and kind are the body's when they are present
    and truthy, and otherwise "An error occurred", the HTTP status and
    "UnknownError"; the details are the body's. Without a response but
    with a request, the caller sees the [ZuthSDKError] ("Network error:
    Unable to reach the server", 0, "NetworkError"). Otherwise it sees a
    [ZuthSDKError] with status code 0, kind "UnknownError" and the message
    of the underlying error, or "An unexpected error occurred". *)
Theorem transport_errors_normalized {T} (adapter : Adapter T)
    (method : Method) (url : string) (data : option Body) (w : World.t) :
  let outcome := (ZuthClient.request adapter method url data w).1 in
  let answer := adapter (outgoing w method url data) in
  ((exists e, outcome = Throw e) <-> (exists error, answer = inl error))
  /\ (forall raw, outcome <> Throw (RawAxiosError raw))
  /\ (forall error response payload,
        answer = inl error ->
        AxiosError.response error = Some response ->
        AxiosResponse.data response = ObjectBody payload ->
        outcome =
          Throw
            (SDKError
               (ZuthSDKError.mk
                  (match ZuthError.message payload with
                   | Some m =>
                       if String.eqb m "" then "An error occurred" else m
                   | None => "An error occurred"
                   end)
                  (match ZuthError.statusCode payload with
                   | Some n =>
                       if Z.eqb n 0 then AxiosResponse.status response else n
                   | None => AxiosResponse.status response
                   end)
                  (match ZuthError.error payload with
                   | Some k => if String.eqb k "" then "UnknownError" else k
                   | None => "UnknownError"
                   end)
                  (ZuthError.details payload))))
  /\ (forall error,
        answer = inl error ->
        AxiosError.response error = None ->
        AxiosError.request error = true ->
        outcome =
          Throw
            (SDKError
               (ZuthSDKError.mk "Network error: Unable to reach the server" 0
                  "NetworkError" None)))
  /\ (forall error,
        answer = inl error ->
        AxiosError.response error = None ->
        AxiosError.request error = false ->
        outcome =
          Throw
            (SDKError
               (ZuthSDKError.mk
                  (match AxiosError.message error with
                   | Some m =>
                       if String.eqb m ""
                       then "An unexpected error occurred" else m
                   | None => "An unexpected error occurred"
                   end)
                  0 "UnknownError" None))).
Proof.
  cbv zeta. rewrite request_outcome. cbn [fst].
  split; [|split; [|split; [|split]]].
  - destruct (adapter _) as [error|body]; split.
    + intros _. exists error. reflexivity.
    + intros _. eexists. reflexivity.
    + intros [e He]. discriminate He.
    + intros [error He]. discriminate He.
  - intros raw. destruct (adapter _) as [error|body]; [|discriminate].
    unfold ZuthClient.response_interceptor_rejected.
    destruct (AxiosError.response error) as [response|].
    + destruct (AxiosResponse.data response) as [payload|m|[m|thrown]];
        discriminate.
    + destruct (AxiosError.request error); discriminate.
  - intros error response payload -> Hresp Hbody.
    unfold ZuthClient.response_interceptor_rejected.
    rewrite Hresp, Hbody. unfold or_default, or_default_num, truthy_string.
    destruct (ZuthError.message _) as [m|]; [destruct (String.eqb m "")|];
      destruct (ZuthError.error _) as [k|]; try destruct (String.eqb k "");
      reflexivity.
  - intros error -> Hresp Hreq.
    unfold ZuthClient.response_interceptor_rejected.
    rewrite Hresp, Hreq. reflexivity.
  - intros error -> Hresp Hreq.
    unfold ZuthClient.response_interceptor_rejected.
    rewrite Hresp, Hreq. unfold or_default, truthy_string.
    destruct (AxiosError.message error) as [m|]; [destruct (String.eqb m "")|];
      reflexivity.
Qed.

Lemma transport_errors_normalized_witness :
  (ZuthClient.request (@Sample2.expired_server User.t) GET "/auth/me" None
     Sample.fresh).1
  = Throw (SDKError (ZuthSDKError.mk "Token expired" 401 "Unauthorized" None)).
Proof.
  apply (proj1 (proj2 (proj2
           (transport_errors_normalized (@Sample2.expired_server User.t) GET
              "/auth/me" None Sample.fresh)))
           Sample2.unauthorized
           (AxiosResponse.mk 401
              (ObjectBody
                 (ZuthError.mk (Some "Unauthorized") (Some "Token expired")
                    None None None None)))
           (ZuthError.mk (Some "Unauthorized") (Some "Token expired")
              None None None None));
    reflexivity.
Defined.

Lemma isAuthenticated_token_slot (w : World.t) :
  Zuth.isAuthenticated w =
    (Ok (match token_slot w with Some _ => true | None => false end), w).
Proof. reflexivity. Qed.

Lemma Headers_lookup_insert (name value : string) (h : Headers.t) :
  (<[name := value]> h : Headers.t) !! name = Some value.
Proof. apply lookup_insert_eq. Qed.

Lemma Headers_lookup_insert_ne (name name' value : string) (h : Headers.t) :
  Headers.normalize name <> Headers.normalize name' ->
  (<[name := value]> h : Headers.t) !! name' = h !! name'.
Proof. intro Hne. apply lookup_insert_ne. exact Hne. Qed.

Lemma request_interceptor_bearer (token : string) (config : Request.t) :
  token <> "" ->
  Request.headers
    (ZuthClient.request_interceptor (Some token) config) !! "Authorization"
  = Some ("Bearer " ++ token).
Proof.
  intro Hne. unfold ZuthClient.request_interceptor.
  destruct (truthy_string token) eqn:Ht.
  - simpl. apply Headers_lookup_insert.
  - apply truthy_string_false in Ht. contradiction.
Qed.

Lemma request_interceptor_falsy (token : option string) (config : Request.t) :
  token = None \/ token = Some "" ->
  ZuthClient.request_interceptor token config = config.
Proof. intros [-> | ->]; reflexivity. Qed.

Lemma send_all_falsy_token {T} (adapter : Adapter T) (calls : list Call)
    (w : World.t) :
  ZuthClientState.accessToken (World.client w) = None
  \/ ZuthClientState.accessToken (World.client w) = Some "" ->
  World.client (send_all adapter calls w) = World.client w
  /\ World.network (send_all adapter calls w) =
       (rev (List.map
               (plain_request (ZuthClientState.axiosInstance (World.client w)))
               calls)
        ++ World.network w)%list.
Proof.
  revert w. induction calls as [|[[method url] data] calls IH]; intros w Hslot.
  - split; reflexivity.
  - simpl. rewrite request_outcome.
    destruct (IH (World.mk (World.client w)
                    (outgoing w method url data :: World.network w)
                    (World.console w)) Hslot) as [Hclient Hnet].
    cbn [snd]. rewrite Hclient, Hnet. split; [reflexivity|].
    cbn [World.client World.network].
    unfold outgoing. rewrite (request_interceptor_falsy _ _ Hslot).
    rewrite <- List.app_assoc. reflexivity.
Qed.

(** C10. After [setAccessToken("")] the facade reports itself
    authenticated, and yet every request dispatched on the transport
    from then on leaves exactly as the axios instance is configured: the
    interceptor adds no Authorization header, so the requests carry none
    unless the application's own headers have one. The requests leave the
    token slot as it is, and the facade still reports itself
    authenticated after them. *)
Theorem empty_token_authenticated_without_bearer {T} (adapter : Adapter T)
    (calls : list Call) (w : World.t) :
  let w1 := (Zuth.setAccessToken "" w).2 in
  let w2 := send_all adapter calls w1 in
  let inst := ZuthClientState.axiosInstance (World.client w) in
  (Zuth.isAuthenticated w1).1 = Ok true
  /\ token_slot w1 = Some ""
  /\ World.network w2 =
       (rev (List.map (plain_request inst) calls) ++ World.network w)%list
  /\ (AxiosInstance.headers inst !! "Authorization" = None ->
      Forall (fun sent => Request.headers sent !! "Authorization" = None)
        (rev (List.map (plain_request inst) calls)))
  /\ (Zuth.isAuthenticated w2).1 = Ok true.
Proof.
  cbv zeta.
  destruct (send_all_falsy_token adapter calls (Zuth.setAccessToken "" w).2)
    as [Hclient Hnet]; [right; reflexivity|].
  repeat apply conj.
  - reflexivity.
  - reflexivity.
  - exact Hnet.
  - intro Hnone. apply Forall_rev, Forall_map, Forall_forall.
    intros [[method url] data] _. exact Hnone.
  - rewrite isAuthenticated_token_slot. unfold token_slot.
    rewrite Hclient. reflexivity.
Qed.

Lemma empty_token_authenticated_without_bearer_witness :
  Forall (fun sent => Request.headers sent !! "Authorization" = None)
    (rev (List.map
            (plain_request
               (ZuthClientState.axiosInstance (World.client Sample.fresh)))
            [(POST, "/oauth/token", None); (GET, "/auth/me", None)])).
Proof.
  apply (proj1 (proj2 (proj2 (proj2
           (empty_token_authenticated_without_bearer Sample.token_server
              [(POST, "/oauth/token", None); (GET, "/auth/me", None)]
              Sample.fresh))))).
  reflexivity.
Defined.

(** ** Token lifecycle *)

Lemma setAccessToken_with_token (token : option string) (w : World.t) :
  ZuthClient.setAccessToken token w = (Ok tt, with_token token w).
Proof. reflexivity. Qed.

Lemma exchangeCodeForToken_outcome (adapter : Adapter OAuthTokenResponse.t)
    (data : OAuthTokenRequest.t) (w : World.t) :
  ZuthOAuth.exchangeCodeForToken adapter data w =
    token_request_outcome adapter
      (outgoing w POST "/oauth/token" (exchange_body data)) w.
Proof.
  unfold ZuthOAuth.exchangeCodeForToken, ZuthClient.post, token_request_outcome.
  unfold_monad. rewrite request_outcome. unfold exchange_body, after_sending.
  destruct (adapter _) as [error|response]; [reflexivity|].
  destruct (truthy_string _); reflexivity.
Qed.

Lemma refreshToken_outcome (adapter : Adapter OAuthTokenResponse.t)
    (refreshToken clientId : string) (w : World.t) :
  ZuthOAuth.refreshToken adapter refreshToken clientId w =
    token_request_outcome adapter
      (outgoing w POST "/oauth/token"
         (Some (RefreshBody "refresh_token" refreshToken clientId))) w.
Proof.
  unfold ZuthOAuth.refreshToken, ZuthClient.post, token_request_outcome.
  unfold_monad. rewrite request_outcome. unfold after_sending.
  destruct (adapter _) as [error|response]; [reflexivity|].
  destruct (truthy_string _); reflexivity.
Qed.

Lemma token_request_installs (adapter : Adapter OAuthTokenResponse.t)
    (request : Request.t) (w w' : World.t) (response : OAuthTokenResponse.t) :
  token_request_outcome adapter request w = (Ok response, w') ->
  OAuthTokenResponse.access_token response <> "" ->
  token_slot w' = Some (OAuthTokenResponse.access_token response).
Proof.
  unfold token_request_outcome.
  destruct (adapter request) as [error|r]; [discriminate|].
  intros [= -> <-] Hne.
  apply truthy_string_true in Hne. rewrite Hne. reflexivity.
Qed.

Lemma login_outcome `{Platform} (adapter : Adapter LoginResponse.t)
    (data : LoginRequest.t) (w w' : World.t) (response : LoginResponse.t) :
  ZuthAuth.login adapter data w = (Ok response, w') ->
  token_slot w' = Some (LoginResponse.access_token response).
Proof.
  unfold ZuthAuth.login.
  destruct (Security.isValidEmail _); simpl; [|discriminate].
  unfold ZuthClient.post. unfold_monad. rewrite request_outcome.
  destruct (adapter _) as [error|r]; [discriminate|].
  intros [= -> <-]. reflexivity.
Qed.

(** The callback handler on a URL that parses: the two early exits, the
    state check, then the exchange. *)
Lemma handleCallback_parsed `{Platform} (adapter : Adapter OAuthTokenResponse.t)
    (url clientId : string) (clientSecret redirectUri originalState : option string)
    (u : URL.t) (w : World.t) :
  new_URL url = ParsedURL u ->
  ZuthOAuth.handleCallback adapter url clientId clientSecret redirectUri
    originalState w =
  let received := URLSearchParams_get "state" (URL.searchParams u) in
  match if_truthy (URLSearchParams_get "error" (URL.searchParams u)),
        if_truthy (URLSearchParams_get "code" (URL.searchParams u)) with
  | Some error, _ => (Throw (Error ("OAuth error: " ++ error)), w)
  | None, None =>
      (Throw (Error "Authorization code not found in callback URL"), w)
  | None, Some code =>
      let data :=
        OAuthTokenRequest.mk code clientId clientSecret
          (or_default redirectUri (URL.origin u ++ URL.pathname u)) None in
      match if_truthy originalState with
      | Some original =>
          match Security.validateOAuthState received original with
          | Throw e => (Throw e, w)
          | Ok _ => ZuthOAuth.exchangeCodeForToken adapter data w
          end
      | None =>
          if truthy received
          then ZuthOAuth.exchangeCodeForToken adapter data
                 (World.mk (World.client w) (World.network w)
                    (ZuthOAuth.unvalidated_state_warning :: World.console w))
          else ZuthOAuth.exchangeCodeForToken adapter data w
      end
  end.
Proof.
  intro Hparse. unfold ZuthOAuth.handleCallback. rewrite Hparse. cbv zeta.
  destruct (if_truthy (URLSearchParams_get "error" _)) as [error|];
    [reflexivity|].
  destruct (if_truthy (URLSearchParams_get "code" _)) as [code|];
    [|reflexivity].
  unfold_monad.
  destruct (if_truthy originalState) as [original|].
  - destruct (Security.validateOAuthState _ original); reflexivity.
  - destruct (truthy _); reflexivity.
Qed.

Lemma handleCallback_success_installs `{Platform}
    (adapter : Adapter OAuthTokenResponse.t) (url clientId : string)
    (clientSecret redirectUri originalState : option string)
    (w w' : World.t) (response : OAuthTokenResponse.t) :
  ZuthOAuth.handleCallback adapter url clientId clientSecret redirectUri
    originalState w = (Ok response, w') ->
  OAuthTokenResponse.access_token response <> "" ->
  token_slot w' = Some (OAuthTokenResponse.access_token response).
Proof.
  destruct (new_URL url) as [u|m] eqn:Hparse.
  - rewrite (handleCallback_parsed adapter url clientId clientSecret
               redirectUri originalState u w Hparse). cbv zeta.
    destruct (if_truthy (URLSearchParams_get "error" _)); [discriminate|].
    destruct (if_truthy (URLSearchParams_get "code" _)); [|discriminate].
    destruct (if_truthy originalState).
    + destruct (Security.validateOAuthState _ _); [|discriminate].
      rewrite exchangeCodeForToken_outcome. apply token_request_installs.
    + destruct (truthy _); rewrite exchangeCodeForToken_outcome;
        apply token_request_installs.
  - unfold ZuthOAuth.handleCallback. rewrite Hparse. discriminate.
Qed.

(** The two token requests, from the server's answer. *)
Lemma token_request_answered (adapter : Adapter OAuthTokenResponse.t)
    (request : Request.t) (w : World.t) (response : OAuthTokenResponse.t) :
  adapter request = inr response ->
  OAuthTokenResponse.access_token response <> "" ->
  token_request_outcome adapter request w =
    (Ok response,
     with_token (Some (OAuthTokenResponse.access_token response))
       (after_sending request w)).
Proof.
  intros Hanswer Hne. unfold token_request_outcome. rewrite Hanswer.
  apply truthy_string_true in Hne. rewrite Hne. reflexivity.
Qed.

(** C5. A facade built from a configuration with a base URL is not
    authenticated; it is not authenticated after [clearAuth]; it is
    authenticated after [setAccessToken]. When the server answers the
    login request of a well-formed e-mail address, [login] returns the
    answer, the token slot holds its access token and the facade is
    authenticated. When the server answers the token request of a code
    exchange or of a refresh with a non-empty access token, the call
    returns the answer, the slot holds that token and the facade is
    authenticated. The same holds of [handleCallback] on a callback URL
    that has a code, no error, and the expected state if one is given.
    Each of these calls has sent one request. *)
Theorem facade_authentication_lifecycle `{Platform} `{Axios} :
  (forall config, ZuthConfig.baseUrl config <> "" ->
     exists w, Zuth.constructor config = Ok w
               /\ (Zuth.isAuthenticated w).1 = Ok false)
  /\ (forall w, (Zuth.isAuthenticated (Zuth.clearAuth w).2).1 = Ok false)
  /\ (forall token w,
        (Zuth.isAuthenticated (Zuth.setAccessToken token w).2).1 = Ok true)
  /\ (forall adapter data w response,
        Security.isValidEmail (LoginRequest.email data) = true ->
        adapter
          (outgoing w POST "/auth/login"
             (Some (LoginBody
                      (LoginRequest.mk
                         (Security.sanitizeInput
                            (String_trim
                               (String_toLowerCase (LoginRequest.email data))))
                         (LoginRequest.password data)))))
          = inr response ->
        let after := ZuthAuth.login adapter data w in
        after.1 = Ok response
        /\ token_slot after.2 = Some (LoginResponse.access_token response)
        /\ (Zuth.isAuthenticated after.2).1 = Ok true
        /\ List.length (World.network after.2)
           = S (List.length (World.network w)))
  /\ (forall adapter data w response,
        adapter (outgoing w POST "/oauth/token" (exchange_body data))
          = inr response ->
        OAuthTokenResponse.access_token response <> "" ->
        let after := ZuthOAuth.exchangeCodeForToken adapter data w in
        after.1 = Ok response
        /\ token_slot after.2 = Some (OAuthTokenResponse.access_token response)
        /\ (Zuth.isAuthenticated after.2).1 = Ok true
        /\ List.length (World.network after.2)
           = S (List.length (World.network w)))
  /\ (forall adapter refreshToken clientId w response,
        adapter
          (outgoing w POST "/oauth/token"
             (Some (RefreshBody "refresh_token" refreshToken clientId)))
          = inr response ->
        OAuthTokenResponse.access_token response <> "" ->
        let after := ZuthOAuth.refreshToken adapter refreshToken clientId w in
        after.1 = Ok response
        /\ token_slot after.2 = Some (OAuthTokenResponse.access_token response)
        /\ (Zuth.isAuthenticated after.2).1 = Ok true
        /\ List.length (World.network after.2)
           = S (List.length (World.network w)))
  /\ (forall adapter url clientId clientSecret redirectUri originalState
             w u code response,
        new_URL url = ParsedURL u ->
        if_truthy (URLSearchParams_get "error" (URL.searchParams u)) = None ->
        if_truthy (URLSearchParams_get "code" (URL.searchParams u))
          = Some code ->
        (forall original, if_truthy originalState = Some original ->
           Security.validateOAuthState
             (URLSearchParams_get "state" (URL.searchParams u)) original
           = Ok tt) ->
        adapter
          (outgoing w POST "/oauth/token"
             (exchange_body
                (OAuthTokenRequest.mk code clientId clientSecret
                   (or_default redirectUri (URL.origin u ++ URL.pathname u))
                   None)))
          = inr response ->
        OAuthTokenResponse.access_token response <> "" ->
        let after :=
          ZuthOAuth.handleCallback adapter url clientId clientSecret
            redirectUri originalState w in
        after.1 = Ok response
        /\ token_slot after.2 = Some (OAuthTokenResponse.access_token response)
        /\ (Zuth.isAuthenticated after.2).1 = Ok true
        /\ List.length (World.network after.2)
           = S (List.length (World.network w))).
Proof.
  split; [|split; [|split; [|split; [|split; [|split]]]]].
  - intros config Hbase. unfold Zuth.constructor.
    apply truthy_string_true in Hbase. rewrite Hbase. simpl.
    eexists. split; reflexivity.
  - reflexivity.
  - reflexivity.
  - intros adapter data w response Hemail Hanswer. cbv zeta.
    unfold ZuthAuth.login. rewrite Hemail. cbn [negb].
    unfold ZuthClient.post. unfold_monad. rewrite request_outcome.
    rewrite Hanswer. repeat split.
  - intros adapter data w response Hanswer Hne. cbv zeta.
    rewrite exchangeCodeForToken_outcome.
    rewrite (token_request_answered _ _ _ _ Hanswer Hne).
    repeat split.
  - intros adapter refreshToken clientId w response Hanswer Hne. cbv zeta.
    rewrite refreshToken_outcome.
    rewrite (token_request_answered _ _ _ _ Hanswer Hne).
    repeat split.
  - intros adapter url clientId clientSecret redirectUri originalState
      w u code response Hparse Herror Hcode Hstate Hanswer Hne. cbv zeta.
    rewrite (handleCallback_parsed adapter url clientId clientSecret
               redirectUri originalState u w Hparse). cbv zeta.
    rewrite Herror, Hcode.
    destruct (if_truthy originalState) as [original|].
    + rewrite (Hstate original eq_refl).
      rewrite exchangeCodeForToken_outcome.
      rewrite (token_request_answered _ _ _ _ Hanswer Hne).
      repeat split.
    + destruct (truthy _);
        rewrite exchangeCodeForToken_outcome;
        rewrite (token_request_answered _ _ _ _ Hanswer Hne);
        repeat split.
Qed.

Lemma facade_authentication_lifecycle_witness :
  (Zuth.isAuthenticated
     (@ZuthAuth.login Sample.node Sample.login_server
        (LoginRequest.mk "User@Sample.com" "secret-password")
        Sample.fresh).2).1 = Ok true
  /\ (Zuth.isAuthenticated
        (ZuthOAuth.exchangeCodeForToken Sample.token_server
           (OAuthTokenRequest.mk "abc" "c1" None "https://app.test/cb" None)
           Sample.fresh).2).1 = Ok true
  /\ (Zuth.isAuthenticated
        (ZuthOAuth.refreshToken Sample.token_server "r1" "c1"
           Sample.fresh).2).1 = Ok true
  /\ (Zuth.isAuthenticated
        (@ZuthOAuth.handleCallback Sample.node Sample.token_server
           "https://app.test/cb?code=abc&state=S" "c1" None None (Some "S")
           Sample.fresh).2).1 = Ok true.
Proof.
  pose proof (@facade_authentication_lifecycle Sample.node Sample.axios)
    as [_ [_ [_ [Hlogin [Hexchange [Hrefresh Hcallback]]]]]].
  split; [|split; [|split]].
  - apply (Hlogin Sample.login_server
             (LoginRequest.mk "User@Sample.com" "secret-password")
             Sample.fresh (LoginResponse.mk "t0" Sample.alice None));
      reflexivity.
  - apply (Hexchange Sample.token_server
             (OAuthTokenRequest.mk "abc" "c1" None "https://app.test/cb" None)
             Sample.fresh (Sample.token_response "t1"));
      [reflexivity | discriminate].
  - apply (Hrefresh Sample.token_server "r1" "c1" Sample.fresh
             (Sample.token_response "t1"));
      [reflexivity | discriminate].
  - apply (Hcallback Sample.token_server
             "https://app.test/cb?code=abc&state=S" "c1" None None (Some "S")
             Sample.fresh
             (Sample.callback_url [("code", "abc"); ("state", "S")]) "abc"
             (Sample.token_response "t1"));
      try reflexivity; try discriminate.
    intros original [= <-]. reflexivity.
Defined.

(** ** The callback handler *)








(** ** The authorization URL *)

Lemma String_app_assoc (s t r : string) : (s ++ t) ++ r = s ++ (t ++ r).
Proof. induction s as [|c s IH]; simpl; [reflexivity | rewrite IH; reflexivity]. Qed.

Lemma urlencode_byte_safe (c : ascii) :
  every_char query_safe (urlencode_byte c) = true.
Proof. destruct c as [[] [] [] [] [] [] [] []]; reflexivity. Qed.

Lemma urlencode_safe (s : string) : every_char query_safe (urlencode s) = true.
Proof.
  induction s as [|c s IH]; [reflexivity|].
  simpl. rewrite every_char_app, urlencode_byte_safe, IH. reflexivity.
Qed.

Lemma authorization_query_string (params : OAuthAuthorizeParams.t)
    (state : string) :
  URLSearchParams_toString (ZuthOAuth.authorization_query params state) =
    "client_id=" ++ urlencode (OAuthAuthorizeParams.clientId params)
    ++ "&redirect_uri=" ++ urlencode (OAuthAuthorizeParams.redirectUri params)
    ++ "&response_type="
    ++ urlencode (match OAuthAuthorizeParams.responseType params with
                  | Some r => ResponseType_string r
                  | None => "code"
                  end)
    ++ "&scope="
    ++ urlencode (or_default (OAuthAuthorizeParams.scope params)
                    "openid profile email")
    ++ "&state=" ++ urlencode state.
Proof.
  unfold URLSearchParams_toString, ZuthOAuth.authorization_query.
  cbn [List.map String.concat fst snd].
  rewrite !String_app_assoc. reflexivity.
Qed.

Lemma getAuthorizationUrl_outcome `{Platform} (client : ZuthClientState.t)
    (rnd : nat -> byte) (params : OAuthAuthorizeParams.t)
    (allowedOrigins : option (list string)) :
  ZuthOAuth.getAuthorizationUrl client rnd params allowedOrigins =
    let state :=
      match if_truthy (OAuthAuthorizeParams.state params) with
      | Some given => given
      | None => Security.generateOAuthState rnd
      end in
    let built :=
      Ok (OAuthAuthorizationResult.mk
            (ZuthClient.getBaseUrl client ++ "/oauth/authorize?"
             ++ URLSearchParams_toString
                  (ZuthOAuth.authorization_query params state))
            state) in
    match allowedOrigins with
    | None | Some [] => built
    | Some origins =>
        match Security.validateRedirectUri
                (OAuthAuthorizeParams.redirectUri params) origins with
        | Throw e => Throw e
        | Ok _ => built
        end
    end.
Proof.
  unfold ZuthOAuth.getAuthorizationUrl.
  destruct allowedOrigins as [[|o origins]|]; reflexivity.
Qed.

(** C2, as stated, fails: an allow-list that is supplied but empty is
    not consulted. [validateRedirectUri] rejects every URI against it,
    and yet the URL is built. *)
Lemma empty_allow_list_is_not_consulted :
  let params :=
    OAuthAuthorizeParams.mk "c1" "https://app.test/cb" None None None in
  @Security.validateRedirectUri Sample.node "https://app.test/cb" [] =
    Throw (Error
      "Redirect URI https://app.test/cb is not in the allowed origins list. Allowed origins: ")
  /\ @ZuthOAuth.getAuthorizationUrl Sample.node
       (World.client Sample.fresh) Sample.zeros params (Some []) =
     Ok (OAuthAuthorizationResult.mk
           ("https://api.zuth.example.com/oauth/authorize?client_id=c1&redirect_uri=https%3A%2F%2Fapp.test%2Fcb&response_type=code&scope=openid+profile+email&state="
            ++ Security.generateOAuthState Sample.zeros)
           (Security.generateOAuthState Sample.zeros)).
Proof. split; reflexivity. Qed.

(** C2, amended. With a supplied, non-empty allow-list,
    [getAuthorizationUrl] validates the redirect URI first and throws
    what the validation throws, building nothing. Otherwise (no list, an
    empty list, or a URI that passes) it returns the state it used, which
    is [params.state] when that is present and not empty and a generated
    one when it is not, with the URL base + "/oauth/authorize?" followed
    by client_id, redirect_uri, response_type (default "code"), scope
    (default "openid profile email") and state, in this order, each value
    form-urlencoded: only letters, digits, [*-._], [+] for a space and
    [%XX] escapes occur in it. *)
Theorem getAuthorizationUrl_contract `{Platform} (client : ZuthClientState.t)
    (rnd : nat -> byte) (params : OAuthAuthorizeParams.t)
    (allowedOrigins : option (list string)) :
  let redirectUri := OAuthAuthorizeParams.redirectUri params in
  let state :=
    match OAuthAuthorizeParams.state params with
    | Some given => if String.eqb given "" then Security.generateOAuthState rnd
                    else given
    | None => Security.generateOAuthState rnd
    end in
  (forall origins e,
     allowedOrigins = Some origins -> origins <> [] ->
     Security.validateRedirectUri redirectUri origins = Throw e ->
     ZuthOAuth.getAuthorizationUrl client rnd params allowedOrigins = Throw e)
  /\ (allowedOrigins = None \/ allowedOrigins = Some []
      \/ (exists origins, allowedOrigins = Some origins
            /\ Security.validateRedirectUri redirectUri origins = Ok tt) ->
      ZuthOAuth.getAuthorizationUrl client rnd params allowedOrigins =
        Ok (OAuthAuthorizationResult.mk
              (ZuthClient.getBaseUrl client ++ "/oauth/authorize?"
               ++ "client_id="
               ++ urlencode (OAuthAuthorizeParams.clientId params)
               ++ "&redirect_uri=" ++ urlencode redirectUri
               ++ "&response_type="
               ++ urlencode
                    (match OAuthAuthorizeParams.responseType params with
                     | Some r => ResponseType_string r
                     | None => "code"
                     end)
               ++ "&scope="
               ++ urlencode
                    (match OAuthAuthorizeParams.scope params with
                     | Some scope =>
                         if String.eqb scope "" then "openid profile email"
                         else scope
                     | None => "openid profile email"
                     end)
               ++ "&state=" ++ urlencode state)
              state))
  /\ (forall s, every_char query_safe (urlencode s) = true).
Proof.
  intros redirectUri state.
  assert (Hstate : match if_truthy (OAuthAuthorizeParams.state params) with
                   | Some given => given
                   | None => Security.generateOAuthState rnd
                   end = state).
  { unfold state, if_truthy, truthy_string.
    destruct (OAuthAuthorizeParams.state params) as [given|]; [|reflexivity].
    destruct (String.eqb given ""); reflexivity. }
  assert (Hscope : or_default (OAuthAuthorizeParams.scope params)
                     "openid profile email"
                   = match OAuthAuthorizeParams.scope params with
                     | Some scope =>
                         if String.eqb scope "" then "openid profile email"
                         else scope
                     | None => "openid profile email"
                     end).
  { unfold or_default, truthy_string.
    destruct (OAuthAuthorizeParams.scope params) as [scope|]; [|reflexivity].
    destruct (String.eqb scope ""); reflexivity. }
  rewrite getAuthorizationUrl_outcome. cbv zeta.
  rewrite Hstate, authorization_query_string, Hscope. fold redirectUri.
  split; [|split].
  - intros origins e -> Hne Hfail.
    destruct origins as [|o origins]; [contradiction|].
    rewrite Hfail. reflexivity.
  - intros [-> | [-> | [origins [-> Hpass]]]]; try reflexivity.
    destruct origins as [|o origins]; [reflexivity|].
    rewrite Hpass. reflexivity.
  - apply urlencode_safe.
Qed.

Lemma getAuthorizationUrl_contract_witness :
  @ZuthOAuth.getAuthorizationUrl Sample.node (World.client Sample.fresh)
    Sample.zeros
    (OAuthAuthorizeParams.mk "c1" "https://app.test/cb" None None None)
    (Some ["https://evil.test"])
  = Throw (Error
      "Redirect URI https://app.test/cb is not in the allowed origins list. Allowed origins: https://evil.test").
Proof.
  apply (proj1 (@getAuthorizationUrl_contract Sample.node
                  (World.client Sample.fresh) Sample.zeros
                  (OAuthAuthorizeParams.mk "c1" "https://app.test/cb"
                     None None None)
                  (Some ["https://evil.test"]))
           ["https://evil.test"] _ eq_refl).
  - discriminate.
  - reflexivity.
Defined.

(** The scenario of the specification: no allow-list, no state. *)
Example getAuthorizationUrl_scenario :
  @ZuthOAuth.getAuthorizationUrl Sample.node (World.client Sample.fresh)
    Sample.zeros
    (OAuthAuthorizeParams.mk "c1" "https://app.test/cb" None None None) None
  = Ok (OAuthAuthorizationResult.mk
          "https://api.zuth.example.com/oauth/authorize?client_id=c1&redirect_uri=https%3A%2F%2Fapp.test%2Fcb&response_type=code&scope=openid+profile+email&state=0000000000000000000000000000000000000000000000000000000000000000"
          "0000000000000000000000000000000000000000000000000000000000000000").
Proof. reflexivity. Qed.

(** The scenario of the specification: a callback with the right state
    is exchanged in one request that carries the code, and the token of
    the response ends up in the token slot. *)
Example handleCallback_scenario :
  let outcome :=
    @ZuthOAuth.handleCallback Sample.node Sample.token_server
      "https://app.test/cb?code=abc&state=S" "c1" None None (Some "S")
      Sample.fresh in
  outcome.1 = Ok (Sample.token_response "t1")
  /\ List.map Request.data (World.network outcome.2) =
       [ Some (TokenBody
                 (OAuthTokenRequest.mk "abc" "c1" None "https://app.test/cb"
                    None)
                 "authorization_code") ]
  /\ token_slot outcome.2 = Some "t1".
Proof. repeat split. Qed.

(** The earlier revision of the handler has no state check at all: a
    callback with a code is exchanged whatever state it carries. *)
Example legacy_handleCallback_ignores_state :
  let outcome :=
    @LegacyOAuth.handleCallback Sample.node Sample.token_server
      "https://app.test/cb?code=abc&state=WRONG" "c1" None None
      Sample.fresh in
  outcome.1 = Ok (Sample.token_response "t1")
  /\ List.length (World.network outcome.2) = 1%nat.
Proof. repeat split. Qed.

(** The constructor strips the trailing slash of the base URL and
    starts with an empty token slot. *)
Example constructor_scenario :
  @Zuth.constructor Sample.node Sample.axios Sample.config = Ok Sample.fresh
  /\ @Zuth.constructor Sample.node Sample.axios
       (ZuthConfig.mk "" None None None None None)
     = Throw (Error "baseUrl is required in Zuth configuration").
Proof. split; reflexivity. Qed.

(** * Further properties of the code *)

(** ** Password login, logout and the session check *)

(** X1. [logout] sends one POST to /auth/logout, built while the token
    is still in the slot, and empties the slot whether the request
    succeeds or fails; what the request returned or threw is what
    [logout] returns or throws. *)
Theorem logout_always_clears (adapter : Adapter unit) (w : World.t) :
  let outcome := ZuthAuth.logout adapter w in
  token_slot outcome.2 = None
  /\ (Zuth.isAuthenticated outcome.2).1 = Ok false
  /\ World.network outcome.2 =
       outgoing w POST "/auth/logout" None :: World.network w
  /\ outcome.1 = (ZuthClient.post adapter "/auth/logout" None w).1.
Proof.
  unfold ZuthAuth.logout, ZuthClient.post. rewrite request_outcome.
  repeat split.
Qed.

(** The status code that the session check looks at, for an error body
    whose fields are of the declared types. *)
Lemma rejected_statusCode (error : AxiosError.t)
    (response : AxiosResponse.t ErrorBody) (payload : ZuthError.t) :
  AxiosError.response error = Some response ->
  AxiosResponse.data response = ObjectBody payload ->
  error_statusCode (ZuthClient.response_interceptor_rejected error) =
    Some (or_default_num (ZuthError.statusCode payload)
            (AxiosResponse.status response)).
Proof.
  intros Hresp Hbody. unfold ZuthClient.response_interceptor_rejected.
  rewrite Hresp, Hbody. reflexivity.
Qed.

Lemma checkSession_outcome (adapter : Adapter User.t) (w : World.t) :
  ZuthAuthSession.checkSession adapter w =
    (match adapter (outgoing w GET "/auth/me" None) with
     | inr user => Ok (SessionCheck.mk true (Some user))
     | inl error =>
         match ZuthClient.response_interceptor_rejected error with
         | SDKError s =>
             if Z.eqb (ZuthSDKError.statusCode s) 401
             then Ok (SessionCheck.mk false None)
             else Throw (SDKError s)
         | thrown => Throw thrown
         end
     end,
     after_sending (outgoing w GET "/auth/me" None) w).
Proof.
  unfold ZuthAuthSession.checkSession, ZuthAuthSession.getCurrentUser,
    ZuthClient.get.
  rewrite request_outcome. unfold after_sending.
  destruct (adapter _) as [error|user]; [|reflexivity].
  destruct (ZuthClient.response_interceptor_rejected error) as [m|m|s|raw];
    try reflexivity.
  cbn [error_statusCode]. destruct (Z.eqb _ 401); reflexivity.
Qed.

(** X2. [checkSession] answers [{ valid: true, user }] when the request
    succeeds, and [{ valid: false }] exactly when it fails with a
    [ZuthSDKError] whose status code is the number 401; every other
    failure is thrown again as it is, so that no error with status code
    401 is ever thrown. For an error body whose fields are of the
    declared types, the status code is the body's when it has a non-zero
    one and the HTTP status otherwise. An error response whose body is
    [null] is not a session that has expired, whatever its HTTP status:
    the [TypeError] of the interceptor is thrown. The token slot is left
    as it was in every case: an expired session does not clear the
    token. *)
Theorem checkSession_expired_is_a_result (adapter : Adapter User.t)
    (w : World.t) :
  let outcome := ZuthAuthSession.checkSession adapter w in
  let request := outgoing w GET "/auth/me" None in
  (forall user, adapter request = inr user ->
     outcome.1 = Ok (SessionCheck.mk true (Some user)))
  /\ (forall error,
        adapter request = inl error ->
        outcome.1 =
          match ZuthClient.response_interceptor_rejected error with
          | SDKError s =>
              if Z.eqb (ZuthSDKError.statusCode s) 401
              then Ok (SessionCheck.mk false None)
              else Throw (SDKError s)
          | thrown => Throw thrown
          end)
  /\ (forall error response payload,
        adapter request = inl error ->
        AxiosError.response error = Some response ->
        AxiosResponse.data response = ObjectBody payload ->
        or_default_num (ZuthError.statusCode payload)
          (AxiosResponse.status response) = 401%Z ->
        outcome.1 = Ok (SessionCheck.mk false None))
  /\ (forall error response message,
        adapter request = inl error ->
        AxiosError.response error = Some response ->
        AxiosResponse.data response = NullBody message ->
        outcome.1 = Throw (TypeError message))
  /\ (forall e, outcome.1 = Throw e -> error_statusCode e <> Some 401%Z)
  /\ (forall check, outcome.1 = Ok check ->
        SessionCheck.valid check = false ->
        exists error s,
          adapter request = inl error
          /\ ZuthClient.response_interceptor_rejected error = SDKError s
          /\ ZuthSDKError.statusCode s = 401%Z)
  /\ World.client outcome.2 = World.client w
  /\ World.network outcome.2 = request :: World.network w.
Proof.
  cbv zeta. rewrite checkSession_outcome. cbn [fst snd].
  split; [|split; [|split; [|split; [|split; [|split; [|split]]]]]].
  - intros user ->. reflexivity.
  - intros error ->. reflexivity.
  - intros error response payload -> Hresp Hbody Hstatus.
    pose proof (rejected_statusCode error response payload Hresp Hbody)
      as Hcode.
    destruct (ZuthClient.response_interceptor_rejected error) as [m|m|s|raw];
      try discriminate Hcode.
    cbn [error_statusCode] in Hcode. injection Hcode as ->.
    rewrite Hstatus. reflexivity.
  - intros error response message -> Hresp Hbody.
    unfold ZuthClient.response_interceptor_rejected.
    rewrite Hresp, Hbody. reflexivity.
  - intros e. destruct (adapter _) as [error|user]; [|discriminate].
    destruct (ZuthClient.response_interceptor_rejected error) as [m|m|s|raw];
      try (intros [= <-]; discriminate).
    destruct (Z.eqb _ 401) eqn:Hcode; [discriminate|].
    intros [= <-]. cbn [error_statusCode]. intros [= Hs].
    apply Z.eqb_neq in Hcode. contradiction.
  - intros check. destruct (adapter _) as [error|user].
    + destruct (ZuthClient.response_interceptor_rejected error)
        as [m|m|s|raw] eqn:Hthrown; try discriminate.
      destruct (Z.eqb _ 401) eqn:Hcode; [|discriminate].
      intros _ _. exists error, s. split; [reflexivity|].
      split; [exact Hthrown|]. apply Z.eqb_eq. exact Hcode.
    + intros [= <-]. discriminate.
  - reflexivity.
  - reflexivity.
Qed.

Lemma checkSession_expired_is_a_result_witness :
  (ZuthAuthSession.checkSession Sample2.expired_server Sample2.logged_in).1
  = Ok (SessionCheck.mk false None)
  /\ (ZuthAuthSession.checkSession (fun _ => inl Sample2.unauthorized_null)
        Sample2.logged_in).1
     = Throw (TypeError "Cannot read properties of null (reading 'message')").
Proof.
  split.
  - apply (proj1 (proj2 (proj2
             (checkSession_expired_is_a_result Sample2.expired_server
                Sample2.logged_in)))
             Sample2.unauthorized
             (AxiosResponse.mk 401
                (ObjectBody
                   (ZuthError.mk (Some "Unauthorized") (Some "Token expired")
                      None None None None)))
             (ZuthError.mk (Some "Unauthorized") (Some "Token expired")
                None None None None)); reflexivity.
  - apply (proj1 (proj2 (proj2 (proj2
             (checkSession_expired_is_a_result
                (fun _ => inl Sample2.unauthorized_null) Sample2.logged_in))))
             Sample2.unauthorized_null
             (AxiosResponse.mk 401
                (NullBody
                   "Cannot read properties of null (reading 'message')"))
             "Cannot read properties of null (reading 'message')");
      reflexivity.
Defined.

Lemma request_interceptor_keeps (token : option string) (config : Request.t) :
  Request.method (ZuthClient.request_interceptor token config)
    = Request.method config
  /\ Request.url (ZuthClient.request_interceptor token config)
      = Request.url config
  /\ Request.data (ZuthClient.request_interceptor token config)
      = Request.data config
  /\ Request.baseURL (ZuthClient.request_interceptor token config)
      = Request.baseURL config.
Proof.
  unfold ZuthClient.request_interceptor.
  destruct token as [t|]; [destruct (truthy_string t)|]; repeat split.
Qed.

Lemma outgoing_method (w : World.t) (method : Method) (url : string)
    (data : option Body) :
  Request.method (outgoing w method url data) = method.
Proof. unfold outgoing. apply request_interceptor_keeps. Qed.

Lemma outgoing_url (w : World.t) (method : Method) (url : string)
    (data : option Body) :
  Request.url (outgoing w method url data) = url.
Proof. unfold outgoing. apply request_interceptor_keeps. Qed.

Lemma outgoing_data (w : World.t) (method : Method) (url : string)
    (data : option Body) :
  Request.data (outgoing w method url data) = data.
Proof. unfold outgoing. apply request_interceptor_keeps. Qed.

Lemma login_cases `{Platform} (adapter : Adapter LoginResponse.t)
    (data : LoginRequest.t) (w : World.t) :
  ZuthAuth.login adapter data w =
    if Security.isValidEmail (LoginRequest.email data)
    then
      let request :=
        outgoing w POST "/auth/login"
          (Some (LoginBody
                   (LoginRequest.mk
                      (Security.sanitizeInput
                         (String_trim
                            (String_toLowerCase (LoginRequest.email data))))
                      (LoginRequest.password data)))) in
      match adapter request with
      | inr response =>
          (Ok response,
           with_token (Some (LoginResponse.access_token response))
             (after_sending request w))
      | inl error =>
          (Throw (ZuthClient.response_interceptor_rejected error),
           after_sending request w)
      end
    else (Throw (Error "Invalid email format"), w).
Proof.
  unfold ZuthAuth.login.
  destruct (Security.isValidEmail _); [|reflexivity].
  cbn [negb]. unfold ZuthClient.post. unfold_monad. rewrite request_outcome.
  destruct (adapter _); reflexivity.
Qed.

(** X3. A login that fails changes nothing it should not: with an
    email that the format check rejects, "Invalid email format" is thrown
    and the world is untouched (nothing is sent); with a request that
    fails, the token slot keeps its content. When a request is sent it is
    one POST to /auth/login whose body carries the password exactly as
    given. *)
Theorem login_failure_keeps_token `{Platform}
    (adapter : Adapter LoginResponse.t) (data : LoginRequest.t)
    (w : World.t) :
  let outcome := ZuthAuth.login adapter data w in
  (Security.isValidEmail (LoginRequest.email data) = false ->
     outcome = (Throw (Error "Invalid email format"), w))
  /\ (forall e, outcome.1 = Throw e -> token_slot outcome.2 = token_slot w)
  /\ (Security.isValidEmail (LoginRequest.email data) = true ->
      exists sent email,
        World.network outcome.2 = sent :: World.network w
        /\ Request.method sent = POST
        /\ Request.url sent = "/auth/login"
        /\ Request.data sent =
             Some (LoginBody
                     (LoginRequest.mk email (LoginRequest.password data)))).
Proof.
  cbv zeta. rewrite login_cases.
  destruct (Security.isValidEmail _); cbv zeta.
  - repeat apply conj.
    + discriminate.
    + intros e. destruct (adapter _); [reflexivity | discriminate].
    + intros _.
      eexists (outgoing w POST "/auth/login" _), _.
      split; [destruct (adapter _); reflexivity|].
      rewrite outgoing_method, outgoing_url, outgoing_data.
      repeat split.
  - repeat apply conj.
    + reflexivity.
    + reflexivity.
    + discriminate.
Qed.

Lemma login_failure_keeps_token_witness :
  @ZuthAuth.login Sample.node Sample.login_server
    (LoginRequest.mk "not an email" "secret-password") Sample2.logged_in
  = (Throw (Error "Invalid email format"), Sample2.logged_in).
Proof.
  apply (proj1 (@login_failure_keeps_token Sample.node Sample.login_server
                  (LoginRequest.mk "not an email" "secret-password")
                  Sample2.logged_in)).
  reflexivity.
Defined.

(** ** Transport: the bearer header *)

Lemma send_all_bearer {T} (adapter : Adapter T) (calls : list Call)
    (token : string) (w : World.t) :
  token <> "" ->
  ZuthClientState.accessToken (World.client w) = Some token ->
  World.client (send_all adapter calls w) = World.client w
  /\ World.network (send_all adapter calls w) =
       (rev (List.map
               (bearer_request
                  (ZuthClientState.axiosInstance (World.client w)) token)
               calls)
        ++ World.network w)%list.
Proof.
  intro Hne. apply truthy_string_true in Hne.
  revert w. induction calls as [|[[method url] data] calls IH]; intros w Hslot.
  - split; reflexivity.
  - simpl. rewrite request_outcome.
    destruct (IH (World.mk (World.client w)
                    (outgoing w method url data :: World.network w)
                    (World.console w)) Hslot) as [Hclient Hnet].
    cbn [snd]. rewrite Hclient, Hnet. split; [reflexivity|].
    cbn [World.client World.network].
    unfold outgoing, bearer_request, plain_request,
      ZuthClient.request_interceptor.
    rewrite Hslot, Hne, <- List.app_assoc. reflexivity.
Qed.

(** X4. Once a non-empty token has been set, every request dispatched
    on the transport carries the header Authorization with "Bearer "
    followed by that token. Read under any spelling of its name, the
    header is the bearer token: it replaces an authorization header that
    the application configured itself, in whatever case. The headers of
    every other name leave as the instance has them, and the requests
    leave the token in the slot. *)
Theorem bearer_attached_to_every_request {T} (adapter : Adapter T)
    (calls : list Call) (token : string) (w : World.t) :
  token <> "" ->
  let w1 := (Zuth.setAccessToken token w).2 in
  let w2 := send_all adapter calls w1 in
  let inst := ZuthClientState.axiosInstance (World.client w) in
  exists sent,
    World.network w2 = (sent ++ World.network w)%list
    /\ List.length sent = List.length calls
    /\ Forall (fun request =>
                 (forall name,
                    Headers.normalize name = "authorization" ->
                    Request.headers request !! name
                      = Some ("Bearer " ++ token))
                 /\ (forall name,
                       Headers.normalize name <> "authorization" ->
                       Request.headers request !! name
                         = AxiosInstance.headers inst !! name))
         sent
    /\ token_slot w2 = Some token.
Proof.
  intros Hne. cbv zeta.
  destruct (send_all_bearer adapter calls token
              (Zuth.setAccessToken token w).2 Hne eq_refl)
    as [Hclient Hnet].
  eexists. split; [exact Hnet|]. split; [|split].
  - rewrite List.length_rev, List.length_map. reflexivity.
  - apply Forall_rev, Forall_map, Forall_forall.
    intros [[method url] data] _. cbn. split.
    + intros name Hname. unfold lookup, Headers_lookup, Headers.get.
      rewrite Hname. apply lookup_insert_eq.
    + intros name Hname. apply Headers_lookup_insert_ne.
      intro Heq. apply Hname. rewrite <- Heq. reflexivity.
  - unfold token_slot. rewrite Hclient. reflexivity.
Qed.

Lemma bearer_attached_to_every_request_witness :
  exists sent,
    World.network
      (send_all Sample.token_server
         [(GET, "/auth/me", None); (POST, "/auth/mfa/setup", None)]
         (Zuth.setAccessToken "t0" Sample2.with_basic).2)
    = (sent ++ [])%list
    /\ List.length sent = 2%nat
    /\ Forall (fun request =>
                 (forall name,
                    Headers.normalize name = "authorization" ->
                    Request.headers request !! name = Some "Bearer t0")
                 /\ (forall name,
                       Headers.normalize name <> "authorization" ->
                       Request.headers request !! name
                         = AxiosInstance.headers
                             (ZuthClientState.axiosInstance
                                (World.client Sample2.with_basic)) !! name))
         sent
    /\ token_slot
         (send_all Sample.token_server
            [(GET, "/auth/me", None); (POST, "/auth/mfa/setup", None)]
            (Zuth.setAccessToken "t0" Sample2.with_basic).2) = Some "t0".
Proof.
  apply (bearer_attached_to_every_request Sample.token_server
           [(GET, "/auth/me", None); (POST, "/auth/mfa/setup", None)]
           "t0" Sample2.with_basic).
  discriminate.
Defined.

(** The application configured the header authorization, in lower case;
    the request that leaves after [setAccessToken("t0")] has the bearer
    token under that name, and the configured value is gone. *)
Example configured_authorization_replaced :
  AxiosInstance.headers
    (ZuthClientState.axiosInstance (World.client Sample2.with_basic))
    !! "authorization" = Some "Basic dXNlcjpwdw=="
  /\ List.map (fun request => Request.headers request !! "authorization")
       (World.network
          (send_all Sample.token_server [(GET, "/auth/me", None)]
             (Zuth.setAccessToken "t0" Sample2.with_basic).2))
     = [Some "Bearer t0"].
Proof. split; vm_compute; reflexivity. Qed.

(** ** Who writes the token slot *)

Lemma request_frame {T} (adapter : Adapter T) (method : Method)
    (url : string) (data : option Body) (w : World.t) :
  (ZuthClient.request adapter method url data w).2
  = after_sending (outgoing w method url data) w.
Proof. rewrite request_outcome. reflexivity. Qed.

Lemma discarded_post_frame {T} (adapter : Adapter T) (url : string)
    (w : World.t) :
  ((ZuthClient.post adapter url None;; mret tt) w).2
  = after_sending (outgoing w POST url None) w.
Proof.
  unfold ZuthClient.post. unfold_monad. rewrite request_outcome.
  destruct (adapter _); reflexivity.
Qed.

(** X6. The methods that only read or act on the server
    ([getCurrentUser], [getActiveSessions], [revokeSession], [setupMfa],
    [setupEmailMfa], [sendEmailMfaCode], [getOidcConfiguration]) each send
    exactly one request and leave the client as it was, token included,
    whatever the server answers: revoking a session, even the current
    one, does not clear the token. *)
Theorem read_only_methods_keep_client (w : World.t) :
  (forall adapter,
     (ZuthAuthSession.getCurrentUser adapter w).2
     = after_sending (outgoing w GET "/auth/me" None) w)
  /\ (forall adapter,
        (ZuthAuthSession.getActiveSessions adapter w).2
        = after_sending (outgoing w GET "/auth/sessions" None) w)
  /\ (forall T (adapter : Adapter T) sessionId,
        (ZuthAuthSession.revokeSession adapter sessionId w).2
        = after_sending
            (outgoing w POST ("/auth/sessions/" ++ sessionId ++ "/revoke")
               None) w)
  /\ (forall adapter,
        (ZuthAuthSession.setupMfa adapter w).2
        = after_sending (outgoing w POST "/auth/mfa/setup" None) w)
  /\ (forall T (adapter : Adapter T),
        (ZuthAuthSession.setupEmailMfa adapter w).2
        = after_sending (outgoing w POST "/auth/mfa/setup/email" None) w)
  /\ (forall T (adapter : Adapter T),
        (ZuthAuthSession.sendEmailMfaCode adapter w).2
        = after_sending (outgoing w POST "/auth/mfa/email/send-code" None) w)
  /\ (forall adapter,
        (ZuthOAuthBrowser.getOidcConfiguration adapter w).2
        = after_sending
            (outgoing w GET "/.well-known/openid-configuration" None) w)
  /\ (forall request,
        World.client (after_sending request w) = World.client w
        /\ token_slot (after_sending request w) = token_slot w
        /\ World.network (after_sending request w)
           = request :: World.network w).
Proof.
  repeat apply conj.
  - intro adapter. apply request_frame.
  - intro adapter. unfold ZuthAuthSession.getActiveSessions, ZuthClient.get.
    unfold_monad. rewrite request_outcome.
    destruct (adapter _); reflexivity.
  - intros T adapter sessionId. apply discarded_post_frame.
  - intro adapter. apply request_frame.
  - intros T adapter. apply discarded_post_frame.
  - intros T adapter. apply discarded_post_frame.
  - intro adapter. apply request_frame.
  - intro request. repeat split.
Qed.

Lemma token_request_keeps (adapter : Adapter OAuthTokenResponse.t)
    (request : Request.t) (w : World.t) :
  let outcome := token_request_outcome adapter request w in
  (forall e, outcome.1 = Throw e -> token_slot outcome.2 = token_slot w)
  /\ (forall response, outcome.1 = Ok response ->
        OAuthTokenResponse.access_token response = "" ->
        token_slot outcome.2 = token_slot w)
  /\ ZuthClientState.config (World.client outcome.2)
     = ZuthClientState.config (World.client w)
  /\ ZuthClientState.axiosInstance (World.client outcome.2)
     = ZuthClientState.axiosInstance (World.client w)
  /\ World.network outcome.2 = request :: World.network w.
Proof.
  cbv zeta. unfold token_request_outcome.
  destruct (adapter request) as [error|response]; cbn [fst snd].
  - repeat apply conj; try reflexivity; discriminate.
  - destruct (truthy_string _) eqn:Ht;
      repeat apply conj; try reflexivity; try discriminate.
    intros r [= <-] Hempty.
    apply truthy_string_true in Ht. contradiction.
Qed.

(** X7. A code exchange or a refresh that fails, or that succeeds with
    an empty access token, leaves the token slot as it was: a token set
    earlier stays in use. In every case exactly one request is sent and
    the client's configuration is untouched. *)
Theorem token_request_failure_keeps_token
    (adapter : Adapter OAuthTokenResponse.t) (w : World.t) :
  (forall data,
     let outcome := ZuthOAuth.exchangeCodeForToken adapter data w in
     (forall e, outcome.1 = Throw e -> token_slot outcome.2 = token_slot w)
     /\ (forall response, outcome.1 = Ok response ->
           OAuthTokenResponse.access_token response = "" ->
           token_slot outcome.2 = token_slot w)
     /\ ZuthClientState.config (World.client outcome.2)
        = ZuthClientState.config (World.client w)
     /\ World.network outcome.2 =
          outgoing w POST "/oauth/token" (exchange_body data)
          :: World.network w)
  /\ (forall refreshToken clientId,
        let outcome :=
          ZuthOAuth.refreshToken adapter refreshToken clientId w in
        (forall e, outcome.1 = Throw e ->
           token_slot outcome.2 = token_slot w)
        /\ (forall response, outcome.1 = Ok response ->
              OAuthTokenResponse.access_token response = "" ->
              token_slot outcome.2 = token_slot w)
        /\ ZuthClientState.config (World.client outcome.2)
           = ZuthClientState.config (World.client w)
        /\ World.network outcome.2 =
             outgoing w POST "/oauth/token"
               (Some (RefreshBody "refresh_token" refreshToken clientId))
             :: World.network w).
Proof.
  split.
  - intros data. cbv zeta. rewrite exchangeCodeForToken_outcome.
    destruct (token_request_keeps adapter
                (outgoing w POST "/oauth/token" (exchange_body data)) w)
      as (Hfail & Hempty & Hconfig & _ & Hnet).
    auto.
  - intros refreshToken clientId. cbv zeta. rewrite refreshToken_outcome.
    destruct (token_request_keeps adapter
                (outgoing w POST "/oauth/token"
                   (Some (RefreshBody "refresh_token" refreshToken clientId)))
                w)
      as (Hfail & Hempty & Hconfig & _ & Hnet).
    auto.
Qed.

Lemma token_request_failure_keeps_token_witness :
  token_slot
    (ZuthOAuth.refreshToken Sample2.expired_server "r1" "c1"
       Sample2.logged_in).2 = Some "t0".
Proof.
  apply (proj1 (proj2 (token_request_failure_keeps_token
                         Sample2.expired_server Sample2.logged_in)
                  "r1" "c1")
           (ZuthClient.response_interceptor_rejected Sample2.unauthorized)).
  reflexivity.
Defined.

(** ** The state parameter *)

Lemma parse_render_byte (b : byte) (rest : string) :
  parse_state (Security.render_byte b ++ rest) =
    match parse_state rest with
    | Some bytes => Some (b :: bytes)
    | None => None
    end.
Proof.
  rewrite render_byte_digits.
  destruct b; cbn; destruct (parse_state rest); reflexivity.
Qed.

Lemma parse_render_state (array : list byte) :
  parse_state (Security.render_state array) = Some array.
Proof.
  unfold Security.render_state.
  induction array as [|b array IH]; [reflexivity|].
  rewrite map_cons, concat_empty_cons, parse_render_byte, IH. reflexivity.
Qed.

(** X8. The rendering of the random bytes loses nothing: reading the
    hexadecimal string back two digits at a time gives the bytes again.
    So two byte arrays render to the same state only if they are equal,
    and two calls of [generateOAuthState] return the same state only if
    the random source delivered the same 32 bytes. *)
Theorem render_state_injective :
  (forall array, parse_state (Security.render_state array) = Some array)
  /\ (forall a b,
        Security.render_state a = Security.render_state b -> a = b)
  /\ (forall rnd1 rnd2,
        Security.generateOAuthState rnd1 = Security.generateOAuthState rnd2 ->
        forall i, (i < 32)%nat -> rnd1 i = rnd2 i).
Proof.
  assert (Hinj : forall a b,
            Security.render_state a = Security.render_state b -> a = b).
  { intros a b Heq.
    pose proof (parse_render_state a) as Ha.
    rewrite Heq, parse_render_state in Ha. congruence. }
  split; [exact parse_render_state|]. split; [exact Hinj|].
  intros rnd1 rnd2 Heq i Hi.
  apply Hinj in Heq. unfold Security.getRandomValues in Heq.
  assert (Hnth : forall rnd : nat -> byte,
            nth_error (List.map rnd (seq 0 (List.length
                                              (Security.Uint8Array 32)))) i
            = Some (rnd i)).
  { intro rnd. rewrite nth_error_map, nth_error_seq.
    unfold Security.Uint8Array. rewrite repeat_length.
    destruct (Nat.ltb_spec i 32) as [_|Hge]; [reflexivity | lia]. }
  pose proof (Hnth rnd1) as H1. rewrite Heq, Hnth in H1. congruence.
Qed.

Lemma render_state_injective_witness :
  Sample.zeros 7%nat = Sample2.zeros_then_ones 7%nat.
Proof.
  apply (proj2 (proj2 render_state_injective) Sample.zeros
           Sample2.zeros_then_ones eq_refl 7%nat).
  lia.
Defined.

Lemma generateOAuthState_length (rnd : nat -> byte) :
  String.length (Security.generateOAuthState rnd) = 64%nat.
Proof.
  unfold Security.generateOAuthState.
  rewrite render_state_length, getRandomValues_length. reflexivity.
Qed.

Lemma getAuthorizationUrl_state `{Platform} (client : ZuthClientState.t)
    (rnd : nat -> byte) (params : OAuthAuthorizeParams.t)
    (allowedOrigins : option (list string))
    (result : OAuthAuthorizationResult.t) :
  ZuthOAuth.getAuthorizationUrl client rnd params allowedOrigins = Ok result ->
  OAuthAuthorizationResult.state result =
    match if_truthy (OAuthAuthorizeParams.state params) with
    | Some given => given
    | None => Security.generateOAuthState rnd
    end
  /\ OAuthAuthorizationResult.url result =
       ZuthClient.getBaseUrl client ++ "/oauth/authorize?"
       ++ URLSearchParams_toString
            (ZuthOAuth.authorization_query params
               (OAuthAuthorizationResult.state result)).
Proof.
  rewrite getAuthorizationUrl_outcome. cbv zeta.
  destruct allowedOrigins as [[|o origins]|];
    try destruct (Security.validateRedirectUri _ _);
    try discriminate; intros [= <-]; split; reflexivity.
Qed.

Lemma getAuthorizationUrl_state_not_empty `{Platform}
    (client : ZuthClientState.t) (rnd : nat -> byte)
    (params : OAuthAuthorizeParams.t) (allowedOrigins : option (list string))
    (result : OAuthAuthorizationResult.t) :
  ZuthOAuth.getAuthorizationUrl client rnd params allowedOrigins = Ok result ->
  OAuthAuthorizationResult.state result <> "".
Proof.
  intro Hok. apply getAuthorizationUrl_state in Hok. destruct Hok as [-> _].
  destruct (if_truthy _) as [given|] eqn:Hgiven.
  - apply if_truthy_Some in Hgiven. tauto.
  - intro Hempty.
    pose proof (generateOAuthState_length rnd) as Hlen.
    rewrite Hempty in Hlen. discriminate.
Qed.



Lemma validateRedirectUri_Ok `{Platform} (redirectUri : string)
    (allowedOrigins : list string) :
  Security.validateRedirectUri redirectUri allowedOrigins = Ok tt ->
  exists u, new_URL redirectUri = ParsedURL u
            /\ In (URL.protocol u ++ "//" ++ URL.host u) allowedOrigins.
Proof.
  destruct (new_URL redirectUri) as [u|m] eqn:Hparse.
  - rewrite (validateRedirectUri_parsed _ allowedOrigins u Hparse).
    destruct (Security.Array_includes _ _) eqn:Hin; [|discriminate].
    intros _. exists u. split; [reflexivity|].
    apply Array_includes_In. exact Hin.
  - rewrite (validateRedirectUri_unparsed _ allowedOrigins m Hparse).
    destruct (String_includes _ m); discriminate.
Qed.

Lemma getAuthorizationUrl_allowed `{Platform} (client : ZuthClientState.t)
    (rnd : nat -> byte) (params : OAuthAuthorizeParams.t)
    (origins : list string) (result : OAuthAuthorizationResult.t) :
  origins <> [] ->
  ZuthOAuth.getAuthorizationUrl client rnd params (Some origins) = Ok result ->
  exists u,
    new_URL (OAuthAuthorizeParams.redirectUri params) = ParsedURL u
    /\ In (URL.protocol u ++ "//" ++ URL.host u) origins.
Proof.
  intros Hne. rewrite getAuthorizationUrl_outcome. cbv zeta.
  destruct origins as [|o origins]; [contradiction|].
  destruct (Security.validateRedirectUri _ _) as [[]|e] eqn:Hvalid;
    [|discriminate].
  intros _. apply validateRedirectUri_Ok. exact Hvalid.
Qed.

(** X10. An authorization URL obtained under a non-empty allow-list
    always redirects to an allowed origin: whenever [getAuthorizationUrl]
    returns a result for such a list, the redirect URI of the request
    parses and its protocol + "//" + host is a member of the list. *)
Theorem authorization_url_redirects_to_allowed_origin `{Platform}
    (client : ZuthClientState.t) (rnd : nat -> byte)
    (params : OAuthAuthorizeParams.t) (origins : list string)
    (result : OAuthAuthorizationResult.t) :
  origins <> [] ->
  ZuthOAuth.getAuthorizationUrl client rnd params (Some origins) = Ok result ->
  exists u,
    new_URL (OAuthAuthorizeParams.redirectUri params) = ParsedURL u
    /\ In (URL.protocol u ++ "//" ++ URL.host u) origins.
Proof.
  intros Hne Hok.
  apply (getAuthorizationUrl_allowed client rnd params origins result Hne Hok).
Qed.

Lemma authorization_url_redirects_to_allowed_origin_witness :
  exists u,
    @new_URL Sample.node "https://app.test/cb" = ParsedURL u
    /\ In (URL.protocol u ++ "//" ++ URL.host u) ["https://app.test"].
Proof.
  apply (@authorization_url_redirects_to_allowed_origin Sample.node
                  (World.client Sample.fresh) Sample.zeros
                  (OAuthAuthorizeParams.mk "c1" "https://app.test/cb" None
                     None None)
                  ["https://app.test"]
                  (OAuthAuthorizationResult.mk
                     ("https://api.zuth.example.com/oauth/authorize?client_id=c1&redirect_uri=https%3A%2F%2Fapp.test%2Fcb&response_type=code&scope=openid+profile+email&state="
                      ++ Security.generateOAuthState Sample.zeros)
                     (Security.generateOAuthState Sample.zeros))
                  ltac:(discriminate) eq_refl).
Defined.

(** ** The callback handler, once more *)






(** X12. Whatever it is given, [handleCallback] sends at most one
    request. When it sends none it throws and leaves the client as it
    was; when it sends one, that is a POST to /oauth/token with grant type
    "authorization_code", the callback's [code] (its first one, which is
    then not empty) and, as redirect URI, the argument when it is given
    and not empty, and else the callback URL's origin followed by its
    path. *)
Theorem handleCallback_sends_at_most_one_request `{Platform}
    (adapter : Adapter OAuthTokenResponse.t) (url clientId : string)
    (clientSecret redirectUri originalState : option string) (w : World.t) :
  let outcome :=
    ZuthOAuth.handleCallback adapter url clientId clientSecret redirectUri
      originalState w in
  ((exists e, outcome.1 = Throw e)
   /\ World.network outcome.2 = World.network w
   /\ World.client outcome.2 = World.client w)
  \/ (exists u code,
        new_URL url = ParsedURL u
        /\ URLSearchParams_get "code" (URL.searchParams u) = Some code
        /\ code <> ""
        /\ World.network outcome.2 =
             outgoing w POST "/oauth/token"
               (Some (TokenBody
                        (OAuthTokenRequest.mk code clientId clientSecret
                           (match redirectUri with
                            | Some given =>
                                if String.eqb given ""
                                then URL.origin u ++ URL.pathname u
                                else given
                            | None => URL.origin u ++ URL.pathname u
                            end)
                           None)
                        "authorization_code"))
             :: World.network w).
Proof.
  cbv zeta.
  assert (Hdefault : forall u,
            or_default redirectUri (URL.origin u ++ URL.pathname u) =
            match redirectUri with
            | Some given =>
                if String.eqb given "" then URL.origin u ++ URL.pathname u
                else given
            | None => URL.origin u ++ URL.pathname u
            end).
  { intro u. unfold or_default, truthy_string.
    destruct redirectUri as [given|]; [|reflexivity].
    destruct (String.eqb given ""); reflexivity. }
  destruct (new_URL url) as [u|m] eqn:Hparse.
  - rewrite (handleCallback_parsed adapter url clientId clientSecret
               redirectUri originalState u w Hparse).
    cbv zeta.
    destruct (if_truthy (URLSearchParams_get "error" _)) as [error|];
      [left; repeat split; eauto|].
    destruct (if_truthy (URLSearchParams_get "code" _)) as [code|] eqn:Hcode;
      [|left; repeat split; eauto].
    apply if_truthy_Some in Hcode. destruct Hcode as [Hcode Hne].
    assert (Hsent : forall w0,
              World.network w0 = World.network w ->
              World.client w0 = World.client w ->
              World.network
                (ZuthOAuth.exchangeCodeForToken adapter
                   (OAuthTokenRequest.mk code clientId clientSecret
                      (or_default redirectUri
                         (URL.origin u ++ URL.pathname u)) None) w0).2
              = outgoing w POST "/oauth/token"
                  (Some (TokenBody
                           (OAuthTokenRequest.mk code clientId clientSecret
                              (or_default redirectUri
                                 (URL.origin u ++ URL.pathname u)) None)
                           "authorization_code"))
                :: World.network w).
    { intros w0 Hnet Hclient. rewrite exchangeCodeForToken_outcome.
      unfold token_request_outcome, exchange_body, outgoing.
      rewrite Hclient.
      destruct (adapter _) as [error|response];
        [|destruct (truthy_string _)]; cbn; rewrite Hnet; reflexivity. }
    destruct (if_truthy originalState) as [original|].
    + destruct (Security.validateOAuthState _ original).
      * right. exists u, code. rewrite <- Hdefault. auto.
      * left. repeat split; eauto.
    + right. exists u, code. rewrite <- Hdefault.
      destruct (truthy _); auto.
  - left. unfold ZuthOAuth.handleCallback. rewrite Hparse.
    repeat split; eauto.
Qed.

(** ** The authorization URL, once more *)

Lemma String_app_cancel (s a b : string) : s ++ a = s ++ b -> a = b.
Proof.
  induction s as [|c s IH]; simpl; [auto|].
  intros [= Heq]. auto.
Qed.

Lemma String_app_nil_r (s : string) : s ++ "" = s.
Proof. induction s as [|c s IH]; simpl; [reflexivity | rewrite IH; reflexivity]. Qed.

Lemma urlencode_hex_digit (c : ascii) :
  is_hex_digit c = true -> urlencode_byte c = String c "".
Proof. destruct c as [[] [] [] [] [] [] [] []]; intro Hhex; try reflexivity; discriminate Hhex. Qed.

Lemma urlencode_hex (s : string) :
  every_char is_hex_digit s = true -> urlencode s = s.
Proof.
  induction s as [|c s IH]; [reflexivity|].
  simpl. intro Hall. apply andb_true_iff in Hall. destruct Hall as [Hc Hs].
  rewrite (urlencode_hex_digit c Hc), (IH Hs). reflexivity.
Qed.

Lemma urldecode_byte (c : ascii) (rest : string) :
  urldecode (urlencode_byte c ++ rest) = String c (urldecode rest).
Proof. destruct c as [[] [] [] [] [] [] [] []]; reflexivity. Qed.

Lemma urldecode_urlencode (s : string) : urldecode (urlencode s) = s.
Proof.
  induction s as [|c s IH]; [reflexivity|].
  simpl. rewrite urldecode_byte, IH. reflexivity.
Qed.

Lemma legacy_query_string (params : OAuthAuthorizeParams.t) :
  URLSearchParams_toString (LegacyOAuth.authorization_query params) =
    "client_id=" ++ urlencode (OAuthAuthorizeParams.clientId params)
    ++ "&redirect_uri=" ++ urlencode (OAuthAuthorizeParams.redirectUri params)
    ++ "&response_type="
    ++ urlencode (match OAuthAuthorizeParams.responseType params with
                  | Some r => ResponseType_string r
                  | None => "code"
                  end)
    ++ "&scope="
    ++ urlencode (or_default (OAuthAuthorizeParams.scope params)
                    "openid profile email")
    ++ match if_truthy (OAuthAuthorizeParams.state params) with
       | Some state => "&state=" ++ urlencode state
       | None => ""
       end.
Proof.
  unfold URLSearchParams_toString, LegacyOAuth.authorization_query.
  destruct (if_truthy (OAuthAuthorizeParams.state params)) as [state|];
    cbn [List.map List.app String.concat fst snd].
  - rewrite !String_app_assoc. reflexivity.
  - rewrite String_app_nil_r, !String_app_assoc. reflexivity.
Qed.

(** X13. The two revisions of [getAuthorizationUrl] build the same URL
    when the request brings its own non-empty state. When it does not,
    the older revision's URL has no state parameter at all, and the newer
    one's is that URL followed by "&state=" and the generated state
    written as it is: 64 hexadecimal digits need no escaping. *)
Theorem getAuthorizationUrl_extends_legacy `{Platform}
    (client : ZuthClientState.t) (rnd : nat -> byte)
    (params : OAuthAuthorizeParams.t) :
  exists result,
    ZuthOAuth.getAuthorizationUrl client rnd params None = Ok result
    /\ (forall state,
          OAuthAuthorizeParams.state params = Some state -> state <> "" ->
          OAuthAuthorizationResult.state result = state
          /\ OAuthAuthorizationResult.url result =
               LegacyOAuth.getAuthorizationUrl client params)
    /\ (OAuthAuthorizeParams.state params = None
        \/ OAuthAuthorizeParams.state params = Some "" ->
        OAuthAuthorizationResult.state result = Security.generateOAuthState rnd
        /\ OAuthAuthorizationResult.url result =
             LegacyOAuth.getAuthorizationUrl client params
             ++ "&state=" ++ Security.generateOAuthState rnd).
Proof.
  rewrite getAuthorizationUrl_outcome. cbv zeta.
  eexists. split; [reflexivity|].
  unfold LegacyOAuth.getAuthorizationUrl.
  rewrite authorization_query_string, legacy_query_string.
  cbn [OAuthAuthorizationResult.state OAuthAuthorizationResult.url].
  split.
  - intros state Hstate Hne.
    assert (Ht : if_truthy (OAuthAuthorizeParams.state params) = Some state)
      by (apply if_truthy_Some; auto).
    rewrite Ht. split; reflexivity.
  - intros Hnone. apply if_truthy_None in Hnone. rewrite Hnone.
    split; [reflexivity|].
    rewrite (urlencode_hex (Security.generateOAuthState rnd))
      by apply render_state_hex.
    rewrite !String_app_assoc. repeat f_equal.
Qed.

Lemma getAuthorizationUrl_extends_legacy_witness :
  exists result,
    @ZuthOAuth.getAuthorizationUrl Sample.node (World.client Sample.fresh)
      Sample.zeros
      (OAuthAuthorizeParams.mk "c1" "https://app.test/cb" None None
         (Some "xyz")) None = Ok result
    /\ OAuthAuthorizationResult.url result =
         LegacyOAuth.getAuthorizationUrl (World.client Sample.fresh)
           (OAuthAuthorizeParams.mk "c1" "https://app.test/cb" None None
              (Some "xyz")).
Proof.
  destruct (@getAuthorizationUrl_extends_legacy Sample.node
              (World.client Sample.fresh) Sample.zeros
              (OAuthAuthorizeParams.mk "c1" "https://app.test/cb" None None
                 (Some "xyz")))
    as [result [Hok [Hgiven _]]].
  exists result. split; [exact Hok|].
  apply (Hgiven "xyz" eq_refl). discriminate.
Defined.

(** X14. What the SDK writes into the query is read back unchanged by a
    form-urlencoded parser, whatever bytes it contains; so the
    authorization URL determines the state: two requests of one client
    that agree on client id, redirect URI, response type and scope get
    the same URL only if they got the same state. *)
Theorem authorization_url_determines_state `{Platform}
    (client : ZuthClientState.t) (rnd1 rnd2 : nat -> byte)
    (params1 params2 : OAuthAuthorizeParams.t)
    (allowed1 allowed2 : option (list string))
    (result1 result2 : OAuthAuthorizationResult.t) :
  ZuthOAuth.getAuthorizationUrl client rnd1 params1 allowed1 = Ok result1 ->
  ZuthOAuth.getAuthorizationUrl client rnd2 params2 allowed2 = Ok result2 ->
  OAuthAuthorizeParams.clientId params1 = OAuthAuthorizeParams.clientId params2 ->
  OAuthAuthorizeParams.redirectUri params1
    = OAuthAuthorizeParams.redirectUri params2 ->
  OAuthAuthorizeParams.responseType params1
    = OAuthAuthorizeParams.responseType params2 ->
  OAuthAuthorizeParams.scope params1 = OAuthAuthorizeParams.scope params2 ->
  (forall s, urldecode (urlencode s) = s)
  /\ (OAuthAuthorizationResult.url result1 = OAuthAuthorizationResult.url result2
      -> OAuthAuthorizationResult.state result1
         = OAuthAuthorizationResult.state result2).
Proof.
  intros Hok1 Hok2 Hclient Hredirect Htype Hscope.
  split; [exact urldecode_urlencode|].
  apply getAuthorizationUrl_state in Hok1. destruct Hok1 as [_ ->].
  apply getAuthorizationUrl_state in Hok2. destruct Hok2 as [_ ->].
  rewrite !authorization_query_string, Hclient, Hredirect, Htype, Hscope.
  intro Hurl.
  repeat (apply String_app_cancel in Hurl).
  rewrite <- (urldecode_urlencode (OAuthAuthorizationResult.state result1)).
  rewrite Hurl. apply urldecode_urlencode.
Qed.

Lemma authorization_url_determines_state_witness :
  Security.generateOAuthState Sample.zeros
  = Security.generateOAuthState Sample2.zeros_then_ones.
Proof.
  apply (proj2
           (@authorization_url_determines_state Sample.node
              (World.client Sample.fresh) Sample.zeros Sample2.zeros_then_ones
              (OAuthAuthorizeParams.mk "c1" "https://app.test/cb" None None
                 None)
              (OAuthAuthorizeParams.mk "c1" "https://app.test/cb" None None
                 (Some ""))
              None (Some [])
              (OAuthAuthorizationResult.mk
                 ("https://api.zuth.example.com/oauth/authorize?client_id=c1&redirect_uri=https%3A%2F%2Fapp.test%2Fcb&response_type=code&scope=openid+profile+email&state="
                  ++ Security.generateOAuthState Sample.zeros)
                 (Security.generateOAuthState Sample.zeros))
              (OAuthAuthorizationResult.mk
                 ("https://api.zuth.example.com/oauth/authorize?client_id=c1&redirect_uri=https%3A%2F%2Fapp.test%2Fcb&response_type=code&scope=openid+profile+email&state="
                  ++ Security.generateOAuthState Sample2.zeros_then_ones)
                 (Security.generateOAuthState Sample2.zeros_then_ones))
              eq_refl eq_refl eq_refl eq_refl eq_refl eq_refl)).
  reflexivity.
Defined.

(** ** The browser redirect *)

(** X15. [redirectToAuthorization] outside a browser throws before it
    looks at its arguments. In a browser it navigates only when
    [getAuthorizationUrl] returns: a failure leaves the window where it
    was. When it navigates, the new location is the authorization URL,
    the state it returns is the one in that URL and is not empty, and
    under a non-empty allow-list the redirect URI's origin is a member of
    the list. *)
Theorem redirectToAuthorization_navigates_only_when_valid `{Platform}
    (window : option Window.t) (client : ZuthClientState.t)
    (rnd : nat -> byte) (params : OAuthAuthorizeParams.t)
    (allowedOrigins : option (list string)) :
  let outcome :=
    ZuthOAuthBrowser.redirectToAuthorization window client rnd params
      allowedOrigins in
  (window = None ->
     outcome = (Throw (Error ZuthOAuthBrowser.not_a_browser_message), None))
  /\ (forall e, outcome.1 = Throw e -> outcome.2 = window)
  /\ (forall state, outcome.1 = Ok state ->
        exists result,
          ZuthOAuth.getAuthorizationUrl client rnd params allowedOrigins
            = Ok result
          /\ state = OAuthAuthorizationResult.state result
          /\ state <> ""
          /\ outcome.2 =
               Some (Window.mk (OAuthAuthorizationResult.url result))
          /\ (forall origins,
                allowedOrigins = Some origins -> origins <> [] ->
                exists u,
                  new_URL (OAuthAuthorizeParams.redirectUri params)
                    = ParsedURL u
                  /\ In (URL.protocol u ++ "//" ++ URL.host u) origins)).
Proof.
  cbv zeta. unfold ZuthOAuthBrowser.redirectToAuthorization.
  destruct window as [win|].
  - destruct (ZuthOAuth.getAuthorizationUrl client rnd params allowedOrigins)
      as [result|e] eqn:Hurl; cbn [fst snd].
    + repeat apply conj; try discriminate.
      intros state [= <-]. exists result.
      repeat apply conj; try reflexivity.
      * apply (getAuthorizationUrl_state_not_empty _ _ _ _ _ Hurl).
      * intros origins -> Hne.
        apply (getAuthorizationUrl_allowed _ _ _ _ _ Hne Hurl).
    + repeat apply conj; try discriminate. reflexivity.
  - repeat apply conj; try discriminate; reflexivity.
Qed.

Lemma redirectToAuthorization_navigates_only_when_valid_witness :
  (@ZuthOAuthBrowser.redirectToAuthorization Sample.node
     (Some (Window.mk "https://app.test/"))
     (World.client Sample.fresh) Sample.zeros
     (OAuthAuthorizeParams.mk "c1" "https://app.test/cb" None None None)
     (Some ["https://evil.test"])).2
  = Some (Window.mk "https://app.test/").
Proof.
  apply (proj1 (proj2
           (@redirectToAuthorization_navigates_only_when_valid Sample.node
              (Some (Window.mk "https://app.test/"))
              (World.client Sample.fresh) Sample.zeros
              (OAuthAuthorizeParams.mk "c1" "https://app.test/cb" None None
                 None)
              (Some ["https://evil.test"])))
           (Error
              "Redirect URI https://app.test/cb is not in the allowed origins list. Allowed origins: https://evil.test")).
  reflexivity.
Defined.

(** The older revision navigates whenever there is a window: it has no
    allow-list to consult. *)
Example legacy_redirect_scenario :
  ZuthOAuthBrowser.legacy_redirectToAuthorization
    (Some (Window.mk "https://app.test/")) (World.client Sample.fresh)
    (OAuthAuthorizeParams.mk "c1" "https://evil.test/cb" None None None)
  = (Ok tt,
     Some (Window.mk
             "https://api.zuth.example.com/oauth/authorize?client_id=c1&redirect_uri=https%3A%2F%2Fevil.test%2Fcb&response_type=code&scope=openid+profile+email")).
Proof. reflexivity. Qed.

(** ** From the token slot to the wire *)

Lemma slot_carried {T} (adapter : Adapter T) (calls : list Call)
    (token : string) (w : World.t) :
  token <> "" -> token_slot w = Some token ->
  all_carry_bearer adapter calls token w.
Proof.
  intros Hne Hslot.
  destruct (send_all_bearer adapter calls token w Hne Hslot) as [_ Hnet].
  eexists. split; [exact Hnet|]. split.
  - rewrite List.length_rev, List.length_map. reflexivity.
  - apply Forall_rev, Forall_map, Forall_forall.
    intros [[method url] data] _. cbn. apply lookup_insert_eq.
Qed.

(** X16. The token that a login, a code exchange, a refresh or a
    handled callback brings back is used at once: when the call succeeds
    with a non-empty access token, every request sent afterwards carries
    "Authorization: Bearer " followed by exactly that token, whatever
    token was in use before. *)
Theorem installed_token_goes_on_the_wire `{Platform} {T}
    (later : Adapter T) (calls : list Call) (w w' : World.t) :
  (forall adapter data response,
     ZuthAuth.login adapter data w = (Ok response, w') ->
     LoginResponse.access_token response <> "" ->
     all_carry_bearer later calls (LoginResponse.access_token response) w')
  /\ (forall adapter data response,
        ZuthOAuth.exchangeCodeForToken adapter data w = (Ok response, w') ->
        OAuthTokenResponse.access_token response <> "" ->
        all_carry_bearer later calls
          (OAuthTokenResponse.access_token response) w')
  /\ (forall adapter refreshToken clientId response,
        ZuthOAuth.refreshToken adapter refreshToken clientId w
          = (Ok response, w') ->
        OAuthTokenResponse.access_token response <> "" ->
        all_carry_bearer later calls
          (OAuthTokenResponse.access_token response) w')
  /\ (forall adapter url clientId clientSecret redirectUri originalState
             response,
        ZuthOAuth.handleCallback adapter url clientId clientSecret
          redirectUri originalState w = (Ok response, w') ->
        OAuthTokenResponse.access_token response <> "" ->
        all_carry_bearer later calls
          (OAuthTokenResponse.access_token response) w').
Proof.
  repeat apply conj.
  - intros adapter data response Hlogin Hne.
    apply slot_carried; [exact Hne|].
    apply (login_outcome adapter data w w' response Hlogin).
  - intros adapter data response Hx Hne.
    apply slot_carried; [exact Hne|].
    rewrite exchangeCodeForToken_outcome in Hx.
    apply (token_request_installs _ _ _ _ _ Hx Hne).
  - intros adapter refreshToken clientId response Hx Hne.
    apply slot_carried; [exact Hne|].
    rewrite refreshToken_outcome in Hx.
    apply (token_request_installs _ _ _ _ _ Hx Hne).
  - intros adapter url clientId clientSecret redirectUri originalState
      response Hx Hne.
    apply slot_carried; [exact Hne|].
    apply (handleCallback_success_installs _ _ _ _ _ _ _ _ _ Hx Hne).
Qed.

Lemma installed_token_goes_on_the_wire_witness :
  all_carry_bearer Sample2.user_server [(GET, "/auth/me", None)] "t1"
    (ZuthOAuth.refreshToken Sample.token_server "r1" "c1"
       Sample2.logged_in).2.
Proof.
  apply (proj1 (proj2 (proj2
           (@installed_token_goes_on_the_wire Sample.node User.t
              Sample2.user_server [(GET, "/auth/me", None)]
              Sample2.logged_in
              (ZuthOAuth.refreshToken Sample.token_server "r1" "c1"
                 Sample2.logged_in).2)))
           Sample.token_server "r1" "c1" (Sample.token_response "t1")).
  - reflexivity.
  - discriminate.
Defined.

(** ** An error body that is null *)

(** X19. When the server answers a request with an error response whose
    body is [null], the caller of the transport gets the [TypeError]
    that the response interceptor runs into when it reads the message
    of the body, and no [ZuthSDKError]; the request has been sent and the
    client is as it was. *)
Theorem null_error_body_throws_TypeError {T} (adapter : Adapter T)
    (method : Method) (url : string) (data : option Body) (w : World.t)
    (error : AxiosError.t) (response : AxiosResponse.t ErrorBody)
    (message : string) :
  adapter (outgoing w method url data) = inl error ->
  AxiosError.response error = Some response ->
  AxiosResponse.data response = NullBody message ->
  let outcome := ZuthClient.request adapter method url data w in
  outcome.1 = Throw (TypeError message)
  /\ (forall e, outcome.1 <> Throw (SDKError e))
  /\ World.network outcome.2 = outgoing w method url data :: World.network w
  /\ World.client outcome.2 = World.client w.
Proof.
  intros Hanswer Hresp Hbody. cbv zeta. rewrite request_outcome, Hanswer.
  unfold ZuthClient.response_interceptor_rejected. rewrite Hresp, Hbody.
  cbn [fst snd]. split; [reflexivity|]. split; [discriminate|].
  split; reflexivity.
Qed.

Lemma null_error_body_throws_TypeError_witness :
  (ZuthAuth.logout (fun _ => inl Sample2.unauthorized_null)
     Sample2.logged_in).1
  = Throw (TypeError "Cannot read properties of null (reading 'message')").
Proof.
  apply (null_error_body_throws_TypeError
           (fun _ => inl Sample2.unauthorized_null : AxiosError.t + unit)
           POST "/auth/logout" None Sample2.logged_in
           Sample2.unauthorized_null
           (AxiosResponse.mk 401
              (NullBody "Cannot read properties of null (reading 'message')"))
           "Cannot read properties of null (reading 'message')");
    reflexivity.
Defined.

(** ** The two URL checks, on every runtime *)

(** X20. Every outcome of [validateRedirectUri]. It succeeds exactly
    when the URI parses and its origin, protocol + "//" + host, is a
    literal member of [allowedOrigins]. A parsed URI whose origin is not a
    member fails with the allow-list error. A URI that does not parse
    fails with "Invalid redirect URI: " followed by the URI, unless the
    message of the runtime's parse error contains "Redirect URI": then
    the parse error itself is thrown. Nothing else is ever thrown. *)
Theorem validateRedirectUri_outcomes `{Platform} (redirectUri : string)
    (allowedOrigins : list string) :
  (Security.validateRedirectUri redirectUri allowedOrigins = Ok tt
   <-> exists u, new_URL redirectUri = ParsedURL u
                 /\ In (URL.protocol u ++ "//" ++ URL.host u) allowedOrigins)
  /\ (forall u, new_URL redirectUri = ParsedURL u ->
      ~ In (URL.protocol u ++ "//" ++ URL.host u) allowedOrigins ->
      Security.validateRedirectUri redirectUri allowedOrigins =
        Throw (Error (Security.redirect_not_allowed_message redirectUri
                        allowedOrigins)))
  /\ (forall m, new_URL redirectUri = InvalidURL m ->
      Security.validateRedirectUri redirectUri allowedOrigins =
        if String_includes "Redirect URI" m
        then Throw (TypeError m)
        else Throw (Error ("Invalid redirect URI: " ++ redirectUri)))
  /\ (forall e,
        Security.validateRedirectUri redirectUri allowedOrigins = Throw e ->
        RedirectError redirectUri allowedOrigins e
        \/ exists m, new_URL redirectUri = InvalidURL m
                     /\ String_includes "Redirect URI" m = true
                     /\ e = TypeError m).
Proof.
  destruct (new_URL redirectUri) as [u|m] eqn:Hparse.
  - rewrite (validateRedirectUri_parsed _ allowedOrigins u Hparse).
    destruct (Security.Array_includes allowedOrigins _) eqn:Hin.
    + apply Array_includes_In in Hin.
      split; [|split; [|split]]; try discriminate.
      * split; [intros _; exists u; auto | reflexivity].
      * intros u' [= <-] Hout. contradiction.
    + assert (Hout : ~ In (URL.protocol u ++ "//" ++ URL.host u) allowedOrigins).
      { intro Hin'. apply Array_includes_In in Hin'. congruence. }
      split; [|split; [|split]]; try discriminate.
      * split; [discriminate|]. intros [u' [[= <-] Hin']]. contradiction.
      * reflexivity.
      * intros e [= <-]. left. left. reflexivity.
  - rewrite (validateRedirectUri_unparsed _ allowedOrigins m Hparse).
    split; [|split; [|split]]; try discriminate.
    + split.
      * destruct (String_includes "Redirect URI" m); discriminate.
      * intros [u [[=] _]].
    + intros m' [= <-]. reflexivity.
    + intros e. destruct (String_includes "Redirect URI" m) eqn:Hmark.
      * intros [= <-]. right. exists m. auto.
      * intros [= <-]. left. right. reflexivity.
Qed.

Lemma validateRedirectUri_outcomes_witness :
  @Security.validateRedirectUri Sample.node "not a url" ["https://app.test"]
  = Throw (Error "Invalid redirect URI: not a url").
Proof.
  apply (proj1 (proj2 (proj2
           (@validateRedirectUri_outcomes Sample.node "not a url"
              ["https://app.test"]))) "Invalid URL").
  reflexivity.
Defined.

(** X21. Every outcome of [validateSecureUrl]. It succeeds exactly when
    the URL parses and either its scheme is https or [allowLocalhost] is
    set and the host is localhost or 127.0.0.1. Every other parsed URL
    fails with the "Insecure URL" error. A URL that does not parse fails
    with "Invalid URL: " followed by the URL, unless the message of the
    runtime's parse error contains "Insecure URL": then the parse error
    itself is thrown. Nothing else is ever thrown. *)
Theorem validateSecureUrl_outcomes `{Platform} (url : string)
    (allowLocalhost : bool) :
  (Security.validateSecureUrl url allowLocalhost = Ok tt
   <-> exists u, new_URL url = ParsedURL u
                 /\ secure_or_loopback allowLocalhost u)
  /\ (forall u, new_URL url = ParsedURL u ->
      ~ secure_or_loopback allowLocalhost u ->
      Security.validateSecureUrl url allowLocalhost =
        Throw (Error Security.insecure_url_message))
  /\ (forall m, new_URL url = InvalidURL m ->
      Security.validateSecureUrl url allowLocalhost =
        if String_includes "Insecure URL" m
        then Throw (TypeError m)
        else Throw (Error ("Invalid URL: " ++ url)))
  /\ (forall e,
        Security.validateSecureUrl url allowLocalhost = Throw e ->
        InsecureUrlError url e
        \/ exists m, new_URL url = InvalidURL m
                     /\ String_includes "Insecure URL" m = true
                     /\ e = TypeError m).
Proof.
  destruct (new_URL url) as [u|m] eqn:Hparse.
  - rewrite (validateSecureUrl_parsed _ allowLocalhost u Hparse).
    pose proof (secure_or_loopback_decide allowLocalhost u) as Hdec.
    destruct (allowLocalhost && _ || _).
    + assert (Hok : secure_or_loopback allowLocalhost u)
        by (apply Hdec; reflexivity).
      split; [|split; [|split]]; try discriminate.
      * split; [intros _; exists u; auto | reflexivity].
      * intros u' [= <-] Hno. contradiction.
    + assert (Hno : ~ secure_or_loopback allowLocalhost u).
      { intro Hok. apply Hdec in Hok. discriminate. }
      split; [|split; [|split]]; try discriminate.
      * split; [discriminate|]. intros [u' [[= <-] Hok]]. contradiction.
      * reflexivity.
      * intros e [= <-]. left. left. reflexivity.
  - rewrite (validateSecureUrl_unparsed _ allowLocalhost m Hparse).
    split; [|split; [|split]]; try discriminate.
    + split.
      * destruct (String_includes "Insecure URL" m); discriminate.
      * intros [u [[=] _]].
    + intros m' [= <-]. reflexivity.
    + intros e. destruct (String_includes "Insecure URL" m) eqn:Hmark.
      * intros [= <-]. right. exists m. auto.
      * intros [= <-]. left. right. reflexivity.
Qed.

Lemma validateSecureUrl_outcomes_witness :
  @Security.validateSecureUrl Sample.node "http://api.zuth.example.com/" true
  = Throw (Error Security.insecure_url_message).
Proof.
  apply (proj1 (proj2
           (@validateSecureUrl_outcomes Sample.node
              "http://api.zuth.example.com/" true))
           (URL.mk "http:" "api.zuth.example.com" "api.zuth.example.com"
              "http://api.zuth.example.com" "/" [])).
  - reflexivity.
  - unfold secure_or_loopback. simpl.
    intros [Hs | [_ [Hh | Hh]]]; discriminate.
Defined.
